(** * sdgrpcserver.manager: a shallow embedding and its verified properties

    The development follows [src/sdgrpcserver/manager.py] class by class:
    [EngineMode], [ProgressBarWrapper], [PipelineWrapper], [EngineManager].
    Python objects that are mutated in place are modelled by explicit state
    passing; objects that are shared by reference (schedulers, registered
    wrappers) live in a store and are named by their index or key. *)

From Stdlib Require Import ZArith List Ascii String Bool Lia.
From stdpp Require Import base option list gmap strings.

Local Open Scope string_scope.
Local Open Scope Z_scope.

(** ** Python values that occur in scheduler configurations *)

(** A float literal as it is written in the source: [mantissa * 10 ^ exponent]. *)
Record decimal := Decimal { mantissa : Z; exponent : Z }.

Inductive pyval :=
| PyNone
| PyBool (b : bool)
| PyInt (z : Z)
| PyFloat (d : decimal)
| PyStr (s : string).

Definition decimal_eq_int (d : decimal) (n : Z) : bool :=
  if 0 <=? exponent d
  then mantissa d * 10 ^ exponent d =? n
  else mantissa d =? n * 10 ^ (- exponent d).

(** Python's [v == n] for an integer [n] ([True == 1] and [1.0 == 1] hold). *)
Definition py_eq_int (v : pyval) (n : Z) : bool :=
  match v with
  | PyBool b => (if b then 1 else 0) =? n
  | PyInt z => z =? n
  | PyFloat d => decimal_eq_int d n
  | PyNone | PyStr _ => false
  end.

Definition py_ne_int (v : pyval) (n : Z) : bool := negb (py_eq_int v n).

(** ** The runtime probes of [torch] *)

(** What [torch.cuda.is_available()] and [torch.backends.mps.is_available()]
    answer at the moment of a call (a missing backend answers [false]). *)
Record Torch := {
  cuda_is_available : bool;
  mps_is_available : bool
}.

Inductive Device := cuda | mps | cpu.

Definition Device_eqb (a b : Device) : bool :=
  match a, b with
  | cuda, cuda | mps, mps | cpu, cpu => true
  | _, _ => false
  end.

#[global] Instance Device_eq_dec : EqDecision Device.
Proof. solve_decision. Defined.

(** ** class EngineMode *)

Record EngineMode := {
  _vramO : Z;
  _enable_cuda : bool;
  _enable_mps : bool
}.

(** [EngineMode()] with the defaults of [__init__]. *)
Definition EngineMode_default : EngineMode :=
  {| _vramO := 0; _enable_cuda := true; _enable_mps := false |}.

Section Mode.
Variable torch : Torch.
Variable self : EngineMode.

Definition device : Device :=
  let _hasCuda := _enable_cuda self && cuda_is_available torch in
  let _hasMps := _enable_mps self && mps_is_available torch in
  if _hasCuda then cuda else if _hasMps then mps else cpu.

Definition attention_slice : bool :=
  Device_eqb device cuda && (0 <? _vramO self).

Definition cuda_only_unet : bool :=
  Device_eqb device cuda && (2 <? _vramO self).

Definition fp16 : bool :=
  Device_eqb device cuda && (1 <? _vramO self) && negb cuda_only_unet.
End Mode.

(** ** class ProgressBarWrapper *)

(** A stop event is observed through [is_set()]; the argument of [is_set]
    counts the calls made so far, so [is_set ev i] is the state of the flag
    at the moment the iteration is about to yield its element number [i]. *)
Record Event := { is_set : nat -> bool }.

Record ProgressBarWrapper := {
  _progress_callback : option string;
  _stop_event : option Event
}.

Record Iteration (A : Type) := {
  yielded : list A;
  description : option string
}.
Arguments yielded {A} _.
Arguments description {A} _.

Section InternalTqdm.
Context {A : Type}.
Variable self : ProgressBarWrapper.

(** [self._stop_event and self._stop_event.is_set()] at check number [i]. *)
Definition stop_requested (i : nat) : bool :=
  match _stop_event self with
  | Some ev => is_set ev i
  | None => false
  end.

(** [InternalTqdm.__iter__]: the loop over [super().__iter__()], started
    at check number [i]. *)
Fixpoint iter_from (i : nat) (iterable : list A) : Iteration A :=
  match iterable with
  | [] => {| yielded := []; description := None |}
  | x :: rest =>
      if stop_requested i
      then {| yielded := []; description := Some "ABORTED" |}
      else
        let r := iter_from (S i) rest in
        {| yielded := x :: yielded r; description := description r |}
  end.

Definition InternalTqdm__iter__ (iterable : list A) : Iteration A :=
  iter_from 0 iterable.
End InternalTqdm.

(** [ProgressBarWrapper.__call__] followed by the consumption of the
    returned iterator. *)
Definition ProgressBarWrapper__call__ {A} (self : ProgressBarWrapper)
    (iterable : list A) : Iteration A :=
  InternalTqdm__iter__ self iterable.

(** ** Exceptions, results and observable effects *)

Inductive Exn :=
| NotImplementedError (msg : string)
| KeyError (key : string)
| Exception (msg : string)
| RuntimeError (msg : string)
| Upstream (what : string).

Inductive Result (A : Type) :=
| Ok (a : A)
| Raise (e : Exn).
Arguments Ok {A} _.
Arguments Raise {A} _.

(** ** Schedulers *)

(** A scheduler object: its class, its frozen configuration
    ([_internal_dict], read through [config]), the tensor format chosen by
    [set_format], and the run-time state that [set_timesteps] rewrites. *)
Record Scheduler := {
  scheduler_class : string;
  config : gmap string pyval;
  tensor_format : string;
  num_inference_steps : option Z
}.

Definition set_format (s : Scheduler) (fmt : string) : Scheduler :=
  {| scheduler_class := scheduler_class s; config := config s;
     tensor_format := fmt; num_inference_steps := num_inference_steps s |}.

Definition set__internal_dict (s : Scheduler) (d : gmap string pyval) : Scheduler :=
  {| scheduler_class := scheduler_class s; config := d;
     tensor_format := tensor_format s;
     num_inference_steps := num_inference_steps s |}.

Definition set_num_inference_steps (n : option Z) (s : Scheduler) : Scheduler :=
  {| scheduler_class := scheduler_class s; config := config s;
     tensor_format := tensor_format s; num_inference_steps := n |}.

Definition Tensor := list Z.

(** The keyword arguments of the call of the underlying pipeline. *)
Record CallArgs := {
  prompt : string;
  negative_prompt : option string;
  init_image : option Tensor;
  mask_image : option Tensor;
  outmask_image : option Tensor;
  arg_strength : decimal;
  arg_width : Z;
  arg_height : Z;
  arg_num_inference_steps : Z;
  guidance_scale : decimal;
  arg_eta : decimal;
  generator : option (Device * Z);
  output_type : string;
  return_dict : bool
}.

Inductive Effect :=
| DeprecationWarning (scheduler : Scheduler) (steps_offset : pyval)
| EmptyCache
| Autocast (d : Device)
| Invoke (args : CallArgs).

(** ** The underlying pipeline object *)

Inductive dtype := float32 | float16.

Record Pipeline := {
  pipeline_class : string;
  weight_path : string;
  auth_token : pyval;
  safety_checker : option string;
  unet_device : Device;
  modules_device : Device;
  unet_dtype : dtype;
  modules_dtype : dtype;
  attention_slicing : option Z;
  scheduler : nat;
  progress_bar : option ProgressBarWrapper
}.

(** [pipeline.to(device)]: every module moves. *)
Definition Pipeline_to (p : Pipeline) (d : Device) : Pipeline :=
  {| pipeline_class := pipeline_class p; weight_path := weight_path p;
     auth_token := auth_token p; safety_checker := safety_checker p;
     unet_device := d; modules_device := d;
     unet_dtype := unet_dtype p; modules_dtype := modules_dtype p;
     attention_slicing := attention_slicing p;
     scheduler := scheduler p; progress_bar := progress_bar p |}.

(** [pipeline.unet.to(device)]: only the core network moves. *)
Definition unet_to (p : Pipeline) (d : Device) : Pipeline :=
  {| pipeline_class := pipeline_class p; weight_path := weight_path p;
     auth_token := auth_token p; safety_checker := safety_checker p;
     unet_device := d; modules_device := modules_device p;
     unet_dtype := unet_dtype p; modules_dtype := modules_dtype p;
     attention_slicing := attention_slicing p;
     scheduler := scheduler p; progress_bar := progress_bar p |}.

(** [pipeline.to(torch.float16)] and [pipeline.unet.to(torch.float16)]. *)
Definition Pipeline_to_dtype (p : Pipeline) (t : dtype) : Pipeline :=
  {| pipeline_class := pipeline_class p; weight_path := weight_path p;
     auth_token := auth_token p; safety_checker := safety_checker p;
     unet_device := unet_device p; modules_device := modules_device p;
     unet_dtype := t; modules_dtype := t;
     attention_slicing := attention_slicing p;
     scheduler := scheduler p; progress_bar := progress_bar p |}.

Definition unet_to_dtype (p : Pipeline) (t : dtype) : Pipeline :=
  {| pipeline_class := pipeline_class p; weight_path := weight_path p;
     auth_token := auth_token p; safety_checker := safety_checker p;
     unet_device := unet_device p; modules_device := modules_device p;
     unet_dtype := t; modules_dtype := modules_dtype p;
     attention_slicing := attention_slicing p;
     scheduler := scheduler p; progress_bar := progress_bar p |}.

Definition enable_attention_slicing (p : Pipeline) (n : Z) : Pipeline :=
  {| pipeline_class := pipeline_class p; weight_path := weight_path p;
     auth_token := auth_token p; safety_checker := safety_checker p;
     unet_device := unet_device p; modules_device := modules_device p;
     unet_dtype := unet_dtype p; modules_dtype := modules_dtype p;
     attention_slicing := Some n;
     scheduler := scheduler p; progress_bar := progress_bar p |}.

(** The two assignments of [generate]: [pipeline.scheduler = ...] and
    [pipeline.progress_bar = ...]. *)
Definition install (p : Pipeline) (sched : nat) (bar : ProgressBarWrapper) : Pipeline :=
  {| pipeline_class := pipeline_class p; weight_path := weight_path p;
     auth_token := auth_token p; safety_checker := safety_checker p;
     unet_device := unet_device p; modules_device := modules_device p;
     unet_dtype := unet_dtype p; modules_dtype := modules_dtype p;
     attention_slicing := attention_slicing p;
     scheduler := sched; progress_bar := Some bar |}.

(** Residency: a pipeline occupies accelerator memory as soon as one of its
    modules is on a device other than the host. *)
Definition on_host (d : Device) : bool := Device_eqb d cpu.

Definition host_resident (p : Pipeline) : bool :=
  on_host (unet_device p) && on_host (modules_device p).

Definition accelerator_resident (p : Pipeline) : bool :=
  negb (host_resident p).

(** ** What the module imports *)

Definition kwargs := list (string * pyval).

(** The sampler constants of [generation_pb2]. *)
Record Generation_pb2 := {
  SAMPLER_DDPM : Z;
  SAMPLER_K_LMS : Z;
  SAMPLER_DDIM : Z;
  SAMPLER_K_EULER : Z;
  SAMPLER_K_EULER_ANCESTRAL : Z
}.

(** The scheduler classes, the call of the underlying pipeline and the
    loader behind [from_pretrained].  The pipeline call reads the pipeline
    and the scheduler objects; besides its outcome it leaves the step count
    that [set_timesteps] stored in the installed scheduler (configurations
    are [FrozenDict]s, which it cannot write).  The loader answers with the
    scheduler that comes with the weights, or with the exception raised. *)
Record Libraries := {
  LMSDiscreteScheduler : kwargs -> Scheduler;
  DDIMScheduler : kwargs -> Scheduler;
  EulerDiscreteScheduler : kwargs -> Scheduler;
  EulerAncestralDiscreteScheduler : kwargs -> Scheduler;
  pipeline_call : Pipeline -> list Scheduler -> CallArgs ->
                  Result (list Tensor) * option Z;
  load_weights : string -> string -> pyval -> Result Scheduler;
  load_safety_checker : string -> pyval -> Result unit
}.

(** ** class PipelineWrapper *)

(** [heap] holds the scheduler objects this wrapper can reach; the fields
    [_plms] ... [_eulera] and [scheduler] of the pipeline are references
    (indices) into it. *)
Record PipelineWrapper := {
  _id : string;
  _mode : EngineMode;
  _pipeline : Pipeline;
  heap : list Scheduler;
  _plms : nat;
  _klms : nat;
  _ddim : nat;
  _euler : nat;
  _eulera : nat
}.

Definition with_pipeline (w : PipelineWrapper) (p : Pipeline) (h : list Scheduler)
    : PipelineWrapper :=
  {| _id := _id w; _mode := _mode w; _pipeline := p; heap := h;
     _plms := _plms w; _klms := _klms w; _ddim := _ddim w;
     _euler := _euler w; _eulera := _eulera w |}.

Definition _prepScheduler (scheduler : Scheduler) : Scheduler * list Effect :=
  let scheduler := set_format scheduler "pt" in
  match config scheduler !! "steps_offset" with
  | Some steps_offset =>
      if py_ne_int steps_offset 1 then
        let new_config := <["steps_offset" := PyInt 1]> (config scheduler) in
        (set__internal_dict scheduler new_config,
         [DeprecationWarning scheduler steps_offset])
      else (scheduler, [])
  | None => (scheduler, [])
  end.

Definition beta_start : string * pyval := ("beta_start", PyFloat (Decimal 85 (-5))).
Definition beta_end : string * pyval := ("beta_end", PyFloat (Decimal 12 (-3))).
Definition beta_schedule : string * pyval := ("beta_schedule", PyStr "scaled_linear").
Definition num_train_timesteps : string * pyval := ("num_train_timesteps", PyInt 1000).

(** The four schedulers that [__init__] constructs, and the field that
    keeps each of them. *)
Inductive Alternate := KLMS | DDIM | EULER | EULERA.

Definition constructed (lib : Libraries) (a : Alternate) : Scheduler :=
  match a with
  | KLMS => LMSDiscreteScheduler lib
      [beta_start; beta_end; beta_schedule; num_train_timesteps]
  | DDIM => DDIMScheduler lib
      [beta_start; beta_end; beta_schedule;
       ("clip_sample", PyBool false); ("set_alpha_to_one", PyBool false)]
  | EULER => EulerDiscreteScheduler lib
      [beta_start; beta_end; beta_schedule; num_train_timesteps]
  | EULERA => EulerAncestralDiscreteScheduler lib
      [beta_start; beta_end; beta_schedule; num_train_timesteps]
  end.

Definition slot (a : Alternate) (w : PipelineWrapper) : nat :=
  match a with
  | KLMS => _klms w
  | DDIM => _ddim w
  | EULER => _euler w
  | EULERA => _eulera w
  end.

Section PipelineWrapper.
Variable torch : Torch.
Variable lib : Libraries.

Definition PipelineWrapper__init__ (id : string) (mode : EngineMode)
    (pipeline : Pipeline) (objects : list Scheduler)
    : PipelineWrapper * list Effect :=
  let pipeline1 :=
    if fp16 torch mode then Pipeline_to_dtype pipeline float16
    else if cuda_only_unet torch mode then unet_to_dtype pipeline float16
    else pipeline in
  let pipeline2 :=
    if attention_slice torch mode then enable_attention_slicing pipeline1 1
    else pipeline1 in
  let '(klms, w1) := _prepScheduler (constructed lib KLMS) in
  let '(ddim, w2) := _prepScheduler (constructed lib DDIM) in
  let '(euler, w3) := _prepScheduler (constructed lib EULER) in
  let '(eulera, w4) := _prepScheduler (constructed lib EULERA) in
  let n := length objects in
  ({| _id := id; _mode := mode; _pipeline := pipeline2;
      heap := (objects ++ [klms; ddim; euler; eulera])%list;
      _plms := scheduler pipeline;
      _klms := n; _ddim := S n; _euler := S (S n); _eulera := S (S (S n)) |},
   (w1 ++ w2 ++ w3 ++ w4)%list).

Definition activate (self : PipelineWrapper) : PipelineWrapper :=
  if cuda_only_unet torch (_mode self)
  then with_pipeline self (unet_to (_pipeline self) cuda) (heap self)
  else with_pipeline self
         (Pipeline_to (_pipeline self) (device torch (_mode self))) (heap self).

Definition deactivate (self : PipelineWrapper) : PipelineWrapper * list Effect :=
  (with_pipeline self (Pipeline_to (_pipeline self) cpu) (heap self),
   if Device_eqb (device torch (_mode self)) cuda then [EmptyCache] else []).

Definition _autocast (self : PipelineWrapper) : list Effect :=
  if Device_eqb (device torch (_mode self)) cuda
  then [Autocast (device torch (_mode self))]
  else [].
End PipelineWrapper.

Record Params := {
  seed : Z;
  sampler : option Z;
  strength : decimal;
  width : Z;
  height : Z;
  steps : Z;
  cfg_scale : decimal;
  eta : decimal
}.

(** [torch.Generator(device).manual_seed(seed)], for the positive seeds that
    [generate] passes: torch takes a seed below [2 ^ 64] and raises
    [RuntimeError] for a larger one. *)
Definition manual_seed (device : Device) (seed : Z) : Result (Device * Z) :=
  if seed <? 2 ^ 64 then Ok (device, seed)
  else Raise (RuntimeError "Overflow when unpacking long").

Section Generate.
Variable torch : Torch.
Variable pb : Generation_pb2.
Variable lib : Libraries.

(** The [if]/[elif] chain of [generate] over [params.sampler]; [None] is
    the branch that raises. *)
Definition selected_scheduler (self : PipelineWrapper) (sampler : option Z)
    : option nat :=
  match sampler with
  | None => Some (_plms self)
  | Some v =>
      if v =? SAMPLER_DDPM pb then Some (_plms self)
      else if v =? SAMPLER_K_LMS pb then Some (_klms self)
      else if v =? SAMPLER_DDIM pb then Some (_ddim self)
      else if v =? SAMPLER_K_EULER pb then Some (_euler self)
      else if v =? SAMPLER_K_EULER_ANCESTRAL pb then Some (_eulera self)
      else None
  end.

Definition generate (self : PipelineWrapper) (text : string) (params : Params)
    (image mask outmask : option Tensor) (negative_text : option string)
    (progress_callback : option string) (stop_event : option Event)
    : Result (list Tensor) * PipelineWrapper * list Effect :=
  (* [self._pipeline.device] is read as the device of the pipeline's modules *)
  let generator : Result (option (Device * Z)) :=
    if 0 <? seed params then
      let latents_device :=
        if Device_eqb (modules_device (_pipeline self)) mps then cpu
        else modules_device (_pipeline self) in
      match manual_seed latents_device (seed params) with
      | Ok g => Ok (Some g)
      | Raise e => Raise e
      end
    else Ok None in
  match generator with
  | Raise e => (Raise e, self, [])
  | Ok generator =>
      match selected_scheduler self (sampler params) with
      | None =>
          (Raise (NotImplementedError "Scheduler not implemented"), self, [])
      | Some scheduler =>
          let bar := {| _progress_callback := progress_callback;
                        _stop_event := stop_event |} in
          let pipeline := install (_pipeline self) scheduler bar in
          let args :=
            {| prompt := text;
               negative_prompt :=
                 match negative_text with
                 | Some s => if String.eqb s "" then None else Some s
                 | None => None
                 end;
               init_image := image; mask_image := mask;
               outmask_image := outmask;
               arg_strength := strength params;
               arg_width := width params; arg_height := height params;
               arg_num_inference_steps := steps params;
               guidance_scale := cfg_scale params; arg_eta := eta params;
               generator := generator;
               output_type := "tensor"; return_dict := false |} in
          let '(images, timesteps) :=
            pipeline_call lib pipeline (heap self) args in
          (images,
           with_pipeline self pipeline
             (alter (set_num_inference_steps timesteps) scheduler (heap self)),
           (_autocast torch self ++ [Invoke args])%list)
      end
  end.
End Generate.

(** ** [os.path] *)

Record OsPath := {
  isabs : string -> bool;
  join : string -> string -> string;
  normpath : string -> string;
  isdir : string -> bool
}.

(** The POSIX flavour of [os.path], over a file system given by the list of
    its directories. *)
Definition posix_isabs (s : string) : bool :=
  match s with
  | String c _ => Ascii.eqb c "/"%char
  | EmptyString => false
  end.

Fixpoint ends_with_slash (s : string) : bool :=
  match s with
  | EmptyString => false
  | String c EmptyString => Ascii.eqb c "/"%char
  | String _ rest => ends_with_slash rest
  end.

Definition posix_join (a b : string) : string :=
  if posix_isabs b then b
  else if String.eqb a "" || ends_with_slash a then a +:+ b
  else a +:+ "/" +:+ b.

Fixpoint split_slash (cur s : string) : list string :=
  match s with
  | EmptyString => [cur]
  | String c rest =>
      if Ascii.eqb c "/"%char then cur :: split_slash "" rest
      else split_slash (cur +:+ String c "") rest
  end.

(** The component loop of [posixpath.normpath]; [new_comps] is kept with its
    last component first. *)
Fixpoint norm_comps (initial_slashes : nat) (new_comps comps : list string)
    : list string :=
  match comps with
  | [] => rev new_comps
  | comp :: rest =>
      if String.eqb comp "" || String.eqb comp "." then
        norm_comps initial_slashes new_comps rest
      else if negb (String.eqb comp "..")
           || (Nat.eqb initial_slashes 0 && match new_comps with [] => true | _ => false end)
           || match new_comps with last :: _ => String.eqb last ".." | [] => false end
      then norm_comps initial_slashes (comp :: new_comps) rest
      else norm_comps initial_slashes (tail new_comps) rest
  end.

Fixpoint join_slash (comps : list string) : string :=
  match comps with
  | [] => ""
  | [c] => c
  | c :: rest => c +:+ "/" +:+ join_slash rest
  end.

Definition posix_normpath (path : string) : string :=
  if String.eqb path "" then "."
  else
    let initial_slashes : nat :=
      match path with
      | String "/"%char (String "/"%char (String "/"%char _)) => 1
      | String "/"%char (String "/"%char _) => 2
      | String "/"%char _ => 1
      | _ => 0
      end%nat in
    let body := join_slash (norm_comps initial_slashes [] (split_slash "" path)) in
    let path' :=
      match initial_slashes with
      | O => body
      | S O => "/" +:+ body
      | _ => "//" +:+ body
      end in
    if String.eqb path' "" then "." else path'.

Definition posix (directories : list string) : OsPath :=
  {| isabs := posix_isabs;
     join := posix_join;
     normpath := posix_normpath;
     isdir := fun p => existsb (String.eqb p) directories |}.

(** ** Engine configurations *)

(** One entry of the engine list; the optional keys are [None] when the
    key is missing from the dictionary. *)
Record EngineConfig := {
  e_id : string;
  e_class : string;
  e_model : string;
  e_local_model : option string;
  e_enabled : option bool;
  e_default : option bool;
  e_use_auth_token : option bool
}.

(** Truth value of [engine.get(key, fallback)]. *)
Definition get (field : option bool) (fallback : bool) : bool :=
  match field with
  | Some b => b
  | None => fallback
  end.

(** ** class EngineManager *)

Definition dquote : string := String (ascii_of_nat 34) "".

(** [_pipelines] is the registry.  Every wrapper is stored under its own
    identifier, and [getPipe] only ever takes the active wrapper out of the
    registry, so the reference held by [_active] is modelled by that
    identifier: [_active = Some a] stands for the wrapper object
    [_pipelines[a]], and [self._active.id] is [a].  The reference held by
    [_default] is of another kind: a later engine with the same identifier
    replaces the registration but not the default, so the default wrapper
    need not be in the registry any more.  The wrapper objects that
    [loadPipelines] builds are therefore numbered in the order they are
    built ([_built] counts them), and [_default] holds the number of the
    object it refers to. *)
Record EngineManager := {
  engines : list EngineConfig;
  _default : option nat;
  _built : nat;
  _pipelines : gmap string PipelineWrapper;
  _activeId : option string;
  _active : option string;
  _weight_root : string;
  _mode' : EngineMode;
  _nsfw : string;
  _token : pyval
}.

(** [EngineManager.__init__]; [hf_api_token] is [os.environ.get("HF_API_TOKEN")]. *)
Definition EngineManager__init__ (engines : list EngineConfig)
    (weight_root : string) (mode : EngineMode) (nsfw_behaviour : string)
    (hf_api_token : option string) : EngineManager :=
  {| engines := engines; _default := None; _built := 0%nat; _pipelines := ∅;
     _activeId := None; _active := None;
     _weight_root := weight_root; _mode' := mode; _nsfw := nsfw_behaviour;
     _token := match hf_api_token with
               | Some t => PyStr t
               | None => PyBool true
               end |}.

Definition with_pipelines (m : EngineManager) (default : option nat)
    (reg : gmap string PipelineWrapper) : EngineManager :=
  {| engines := engines m; _default := default; _built := _built m;
     _pipelines := reg;
     _activeId := _activeId m; _active := _active m;
     _weight_root := _weight_root m; _mode' := _mode' m; _nsfw := _nsfw m;
     _token := _token m |}.

Definition with_active (m : EngineManager) (a : option string) : EngineManager :=
  {| engines := engines m; _default := _default m; _built := _built m;
     _pipelines := _pipelines m;
     _activeId := _activeId m; _active := a;
     _weight_root := _weight_root m; _mode' := _mode' m; _nsfw := _nsfw m;
     _token := _token m |}.

(** One more wrapper object was built. *)
Definition with_built (m : EngineManager) : EngineManager :=
  {| engines := engines m; _default := _default m; _built := S (_built m);
     _pipelines := _pipelines m;
     _activeId := _activeId m; _active := _active m;
     _weight_root := _weight_root m; _mode' := _mode' m; _nsfw := _nsfw m;
     _token := _token m |}.

(** [Class.from_pretrained(weight_path, use_auth_token=..., **extra_kwargs)]:
    the loaded pipeline sits on the host in full precision and owns the
    scheduler that came with the weights (object number 0). *)
Definition from_pretrained (lib : Libraries) (class weight_path : string)
    (use_auth_token : pyval) (safety_checker : option string)
    : Result (Pipeline * list Scheduler) :=
  match load_weights lib class weight_path use_auth_token with
  | Raise e => Raise e
  | Ok s =>
      Ok ({| pipeline_class := class; weight_path := weight_path;
             auth_token := use_auth_token; safety_checker := safety_checker;
             unet_device := cpu; modules_device := cpu;
             unet_dtype := float32; modules_dtype := float32;
             attention_slicing := None;
             scheduler := 0%nat; progress_bar := None |}, [s])
  end.

Section EngineManager.
Variable os_path : OsPath.
Variable torch : Torch.
Variable lib : Libraries.

Definition _getWeightPath (self : EngineManager) (remote_path : string)
    (local_path : option string) : string :=
  match local_path with
  | Some local_path =>
      if String.eqb local_path "" then remote_path
      else
        let test_path :=
          if isabs os_path local_path then local_path
          else join os_path (_weight_root self) local_path in
        let test_path := normpath os_path test_path in
        if isdir os_path test_path then test_path else remote_path
  | None => remote_path
  end.

(** [buildPipeline]; [Ok None] is the implicit [return None] of a class
    tag that matches neither branch. *)
Definition buildPipeline (self : EngineManager) (engine : EngineConfig)
    : Result (option PipelineWrapper) * list Effect :=
  let weight_path :=
    _getWeightPath self (e_model engine) (e_local_model engine) in
  let use_auth_token :=
    if get (e_use_auth_token engine) false then _token self
    else PyBool false in
  let extra_kwargs : Result (option string) :=
    if String.eqb (_nsfw self) "flag" then
      match load_safety_checker lib weight_path use_auth_token with
      | Ok _ => Ok (Some weight_path)
      | Raise e => Raise e
      end
    else Ok None in
  match extra_kwargs with
  | Raise e => (Raise e, [])
  | Ok safety =>
      let wrap (class : string) :=
        match from_pretrained lib class weight_path use_auth_token safety with
        | Raise e => (Raise e, [])
        | Ok (pipeline, objects) =>
            let '(wrapper, warned) :=
              PipelineWrapper__init__ torch lib (e_id engine) (_mode' self)
                pipeline objects in
            (Ok (Some wrapper), warned)
        end in
      if String.eqb (e_class engine) "StableDiffusionPipeline"
      then wrap "StableDiffusionPipeline"
      else if String.eqb (e_class engine) "UnifiedPipeline"
      then wrap "UnifiedPipeline"
      else (Ok None, [])
  end.

(** The [for] loop of [loadPipelines] over the engines still to visit. *)
Fixpoint loadPipelines_from (self : EngineManager) (todo : list EngineConfig)
    : Result unit * EngineManager * list Effect :=
  match todo with
  | [] => (Ok tt, self, [])
  | engine :: rest =>
      if negb (get (e_enabled engine) false) then loadPipelines_from self rest
      else
        match buildPipeline self engine with
        | (Raise e, warned) => (Raise e, self, warned)
        | (Ok None, warned) =>
            (Raise (Exception ("Unknown engine class " +:+ dquote
                               +:+ e_class engine +:+ dquote)),
             self, warned)
        | (Ok (Some pipe), warned) =>
            let self1 :=
              with_built
                (with_pipelines self
                   (if get (e_default engine) false then Some (_built self)
                    else _default self)
                   (<[_id pipe := pipe]> (_pipelines self))) in
            let '(r, self2, warned') := loadPipelines_from self1 rest in
            (r, self2, (warned ++ warned')%list)
        end
  end.

Definition loadPipelines (self : EngineManager)
    : Result unit * EngineManager * list Effect :=
  loadPipelines_from self (engines self).

(** [id in self._pipelines]. *)
Definition registered (self : EngineManager) (id : string) : bool :=
  match _pipelines self !! id with
  | Some _ => true
  | None => false
  end.

(** The dictionary comprehension of [getStatus]; a later engine with the
    same identifier overwrites an earlier entry. *)
Definition getStatus (self : EngineManager) : gmap string bool :=
  foldl
    (fun status engine =>
       if get (e_enabled engine) true
       then <[e_id engine := registered self (e_id engine)]> status
       else status)
    ∅ (engines self).

(** [getPipe]; the wrapper that is returned is named by its identifier. *)
Definition getPipe (self : EngineManager) (id : string)
    : Result string * EngineManager * list Effect :=
  if match _active self with
     | Some a => String.eqb id a
     | None => false
     end
  then (Ok id, self, [])
  else
    let '(registry, freed) :=
      match _active self with
      | Some a =>
          match _pipelines self !! a with
          | Some w =>
              let '(w', freed) := deactivate torch w in
              (<[a := w']> (_pipelines self), freed)
          | None => (_pipelines self, [])
          end
      | None => (_pipelines self, [])
      end in
    let self1 := with_pipelines self (_default self) registry in
    match registry !! id with
    | None => (Raise (KeyError id), self1, freed)
    | Some w =>
        (Ok id,
         with_active
           (with_pipelines self1 (_default self1)
              (<[id := activate torch w]> registry))
           (Some id),
         freed)
    end.
End EngineManager.

(** ** Sequences of calls *)

(** [getPipe] called once per request, each under the probes of its moment. *)
Fixpoint getPipes (self : EngineManager) (calls : list (Torch * string))
    : EngineManager :=
  match calls with
  | [] => self
  | (torch, id) :: rest => getPipes (getPipe torch self id).1.2 rest
  end.

(** One [generate] request with all its arguments. *)
Record Request := {
  r_torch : Torch;
  r_text : string;
  r_params : Params;
  r_image : option Tensor;
  r_mask : option Tensor;
  r_outmask : option Tensor;
  r_negative_text : option string;
  r_progress_callback : option string;
  r_stop_event : option Event
}.

Section Requests.
Variable pb : Generation_pb2.
Variable lib : Libraries.

Definition serve (self : PipelineWrapper) (r : Request)
    : Result (list Tensor) * PipelineWrapper * list Effect :=
  generate (r_torch r) pb lib self (r_text r) (r_params r) (r_image r)
    (r_mask r) (r_outmask r) (r_negative_text r) (r_progress_callback r)
    (r_stop_event r).

(** The wrapper after a sequence of [generate] calls, and everything the
    calls emitted. *)
Fixpoint generates (self : PipelineWrapper) (rs : list Request)
    : PipelineWrapper * list Effect :=
  match rs with
  | [] => (self, [])
  | r :: rest =>
      let '(_, self1, out) := serve self r in
      let '(self2, out') := generates self1 rest in
      (self2, (out ++ out')%list)
  end.
End Requests.

(** The part of a wrapper that no [generate] call touches: its fields and
    the configurations of its scheduler objects. *)
Definition same_schedulers (w w' : PipelineWrapper) : Prop :=
  _id w' = _id w /\ _mode w' = _mode w
  /\ _plms w' = _plms w /\ _klms w' = _klms w /\ _ddim w' = _ddim w
  /\ _euler w' = _euler w /\ _eulera w' = _eulera w
  /\ config <$> heap w' = config <$> heap w.

(** ** The residency discipline of the registry *)

(** At most one registered wrapper is accelerator-resident. *)
Definition at_most_one_resident (self : EngineManager) : Prop :=
  forall k1 k2 w1 w2,
    _pipelines self !! k1 = Some w1 -> _pipelines self !! k2 = Some w2 ->
    accelerator_resident (_pipeline w1) = true ->
    accelerator_resident (_pipeline w2) = true ->
    k1 = k2.

(** The active pointer, when set, refers to an accelerator-resident wrapper. *)
Definition active_resident (self : EngineManager) : Prop :=
  forall a, _active self = Some a ->
    exists w, _pipelines self !! a = Some w
              /\ accelerator_resident (_pipeline w) = true.

(** Every registered wrapper other than the active one is host-resident. *)
Definition others_host_resident (self : EngineManager) : Prop :=
  forall k w, _pipelines self !! k = Some w -> _active self <> Some k ->
    host_resident (_pipeline w) = true.

Definition registry_invariant (self : EngineManager) : Prop :=
  at_most_one_resident self /\ active_resident self /\ others_host_resident self.

(** The state [loadPipelines] leaves behind: nothing active, every wrapper
    on the host. *)
Definition idle (self : EngineManager) : Prop :=
  _active self = None
  /\ forall k w, _pipelines self !! k = Some w ->
       host_resident (_pipeline w) = true.

(** The registry once [getPipe] deactivated the active wrapper, if any. *)
Definition released (torch : Torch) (self : EngineManager)
    : gmap string PipelineWrapper :=
  match _active self with
  | Some a =>
      match _pipelines self !! a with
      | Some w => <[a := (deactivate torch w).1]> (_pipelines self)
      | None => _pipelines self
      end
  | None => _pipelines self
  end.

(** ** A sample installation *)

Definition sample_pb2 : Generation_pb2 :=
  {| SAMPLER_DDPM := 1; SAMPLER_K_LMS := 7; SAMPLER_DDIM := 0;
     SAMPLER_K_EULER := 2; SAMPLER_K_EULER_ANCESTRAL := 3 |}.

Definition new_scheduler (class : string) (defaults args : kwargs) : Scheduler :=
  {| scheduler_class := class;
     config := list_to_map (args ++ defaults)%list;
     tensor_format := "pt";
     num_inference_steps := None |}.

(** Scheduler classes whose DDIM variant still registers the legacy
    [steps_offset = 0]; a pipeline call that only records the step count;
    a loader that finds every model. *)
Definition sample_lib : Libraries :=
  {| LMSDiscreteScheduler := new_scheduler "LMSDiscreteScheduler" [];
     DDIMScheduler :=
       new_scheduler "DDIMScheduler" [("steps_offset", PyInt 0)];
     EulerDiscreteScheduler := new_scheduler "EulerDiscreteScheduler" [];
     EulerAncestralDiscreteScheduler :=
       new_scheduler "EulerAncestralDiscreteScheduler" [];
     pipeline_call := fun _ _ args => (Ok [], Some (arg_num_inference_steps args));
     load_weights := fun _ _ _ =>
       Ok (new_scheduler "PNDMScheduler" [("skip_prk_steps", PyBool true)] []);
     load_safety_checker := fun _ _ => Ok tt |}.

Definition with_cuda : Torch :=
  {| cuda_is_available := true; mps_is_available := false |}.

Definition host_only : Torch :=
  {| cuda_is_available := false; mps_is_available := false |}.

Definition sample_os : OsPath := posix ["weights/sd-v1-4"; "/models/sd-v1-5"].

Definition engine (id : string) (local_model : option string)
    (enabled : option bool) : EngineConfig :=
  {| e_id := id; e_class := "UnifiedPipeline";
     e_model := "CompVis/stable-diffusion-v1-4";
     e_local_model := local_model; e_enabled := enabled;
     e_default := None; e_use_auth_token := None |}.

Definition sample_engines : list EngineConfig :=
  [engine "A" (Some "sd-v1-4") (Some true);
   engine "B" None (Some true);
   engine "C" None (Some false);
   engine "D" None None].

Definition sample_manager : EngineManager :=
  (loadPipelines sample_os with_cuda sample_lib
     (EngineManager__init__ sample_engines "./weights" EngineMode_default
        "block" None)).1.2.

(** Two configurations under one identifier, the second without the
    [enabled] key. *)
Definition twin_engines : list EngineConfig :=
  [engine "A" None (Some true); engine "A" None None].

Definition twin_manager : EngineManager :=
  (loadPipelines sample_os with_cuda sample_lib
     (EngineManager__init__ twin_engines "./weights" EngineMode_default
        "block" None)).1.2.

Definition sample_wrapper : PipelineWrapper :=
  match _pipelines sample_manager !! "A" with
  | Some w => w
  | None =>
      (PipelineWrapper__init__ with_cuda sample_lib "A" EngineMode_default
         {| pipeline_class := "UnifiedPipeline"; weight_path := "";
            auth_token := PyBool false; safety_checker := None;
            unet_device := cpu; modules_device := cpu;
            unet_dtype := float32; modules_dtype := float32;
            attention_slicing := None; scheduler := 0%nat;
            progress_bar := None |} []).1
  end.

Definition sample_params (sampler : option Z) : Params :=
  {| seed := 42; sampler := sampler; strength := Decimal 8 (-1);
     width := 512; height := 512; steps := 50;
     cfg_scale := Decimal 75 (-1); eta := Decimal 0 0 |}.

(** The same parameters with a seed that [manual_seed] refuses. *)
Definition refused_seed_params (sampler : option Z) : Params :=
  {| seed := 2 ^ 64; sampler := sampler; strength := Decimal 8 (-1);
     width := 512; height := 512; steps := 50;
     cfg_scale := Decimal 75 (-1); eta := Decimal 0 0 |}.

Definition sample_request (sampler : option Z) : Request :=
  {| r_torch := with_cuda; r_text := "a lighthouse at dusk";
     r_params := sample_params sampler;
     r_image := None; r_mask := None; r_outmask := None;
     r_negative_text := None; r_progress_callback := None;
     r_stop_event := None |}.

(** A stop event that is set from the moment [n] elements were yielded. *)
Definition set_after (n : nat) : Event := {| is_set := fun i => n <=? i |}%nat.

(** ** Notions used by the further properties *)

(** The sampler values for which the [if]/[elif] chain of [generate] has a
    branch. *)
Definition recognised (pb : Generation_pb2) (sampler : option Z) : bool :=
  match sampler with
  | None => true
  | Some v =>
      (v =? SAMPLER_DDPM pb) || (v =? SAMPLER_K_LMS pb) || (v =? SAMPLER_DDIM pb)
      || (v =? SAMPLER_K_EULER pb) || (v =? SAMPLER_K_EULER_ANCESTRAL pb)
  end.

Definition is_invoke (e : Effect) : bool :=
  match e with
  | Invoke _ => true
  | _ => false
  end.

(** The class tags for which [buildPipeline] has a branch. *)
Definition known_class (class : string) : bool :=
  String.eqb class "StableDiffusionPipeline" || String.eqb class "UnifiedPipeline".

(** Every registered wrapper is stored under its own identifier. *)
Definition keyed_by_id (self : EngineManager) : Prop :=
  forall k w, _pipelines self !! k = Some w -> _id w = k.

(** Where a pipeline sits and in which precision. *)
Definition placement (p : Pipeline) : Device * Device * dtype * dtype * option Z :=
  (unet_device p, modules_device p, unet_dtype p, modules_dtype p,
   attention_slicing p).

(** A mode at optimisation level [L] with CUDA enabled. *)
Definition level (L : Z) : EngineMode :=
  {| _vramO := L; _enable_cuda := true; _enable_mps := false |}.

(** A freshly loaded pipeline, as [from_pretrained] hands it over. *)
Definition fresh_pipeline : Pipeline :=
  {| pipeline_class := "UnifiedPipeline"; weight_path := "weights/sd-v1-4";
     auth_token := PyBool false; safety_checker := None;
     unet_device := cpu; modules_device := cpu;
     unet_dtype := float32; modules_dtype := float32;
     attention_slicing := None; scheduler := 0%nat; progress_bar := None |}.

Definition fresh_scheduler : Scheduler :=
  new_scheduler "PNDMScheduler" [("steps_offset", PyInt 0)] [].

(** An engine list whose second entry names a class the manager does not
    know. *)
Definition broken_engines : list EngineConfig :=
  [engine "A" None (Some true);
   {| e_id := "B"; e_class := "KarloPipeline"; e_model := "kakaobrain/karlo";
      e_local_model := None; e_enabled := Some true; e_default := None;
      e_use_auth_token := None |};
   engine "C" None (Some true)].

(** A wrapper with its pipeline put back on the host: what is left of a
    wrapper when its placement is disregarded. *)
Definition unmoved (w : PipelineWrapper) : PipelineWrapper :=
  with_pipeline w (Pipeline_to (_pipeline w) cpu) (heap w).

Definition as_default (e : EngineConfig) : EngineConfig :=
  {| e_id := e_id e; e_class := e_class e; e_model := e_model e;
     e_local_model := e_local_model e; e_enabled := e_enabled e;
     e_default := Some true; e_use_auth_token := e_use_auth_token e |}.

(** Two enabled engines under one identifier, the first marked as
    default. *)
Definition colliding_engines : list EngineConfig :=
  [as_default (engine "A" None (Some true));
   engine "A" (Some "sd-v1-4") (Some true)].


Example sample_status :
  getStatus sample_manager = {[ "A" := true; "B" := true; "D" := false ]}.
Proof. vm_compute. reflexivity. Qed.

(** * Properties *)

(** ** EngineMode *)

Lemma cuda_only_unet_device torch mode :
  cuda_only_unet torch mode = true -> device torch mode = cuda.
Proof.
  unfold cuda_only_unet. intros H. apply andb_true_iff in H as [H _].
  destruct (device torch mode); simpl in H; congruence.
Qed.

(** C3. Whatever the optimisation level, the enable flags and the
    availability of the accelerators, [fp16] and [cuda_only_unet] are never
    both true; when [cuda_only_unet] is true, [fp16] is false. *)
Theorem fp16_excludes_cuda_only_unet
    (L : Z) (enable_cuda enable_mps cuda_available mps_available : bool) :
  let mode := {| _vramO := L; _enable_cuda := enable_cuda;
                 _enable_mps := enable_mps |} in
  let torch := {| cuda_is_available := cuda_available;
                  mps_is_available := mps_available |} in
  fp16 torch mode && cuda_only_unet torch mode = false
  /\ (cuda_only_unet torch mode = true -> fp16 torch mode = false).
Proof.
  intros mode torch. unfold fp16.
  destruct (cuda_only_unet torch mode), (Device_eqb (device torch mode) cuda),
    (1 <? _vramO mode); simpl; split; congruence.
Qed.

Lemma fp16_excludes_cuda_only_unet_witness :
  cuda_only_unet with_cuda
    {| _vramO := 3; _enable_cuda := true; _enable_mps := false |} = true
  /\ fp16 with_cuda
       {| _vramO := 3; _enable_cuda := true; _enable_mps := false |} = false.
Proof.
  split; [reflexivity |].
  apply (proj2 (fp16_excludes_cuda_only_unet 3 true false true false)).
  reflexivity.
Defined.

(** ** ProgressBarWrapper *)

Section Iteration.
Context {A : Type}.
Variable self : ProgressBarWrapper.

Lemma iter_from_stopped i (xs : list A) :
  stop_requested self i = true -> yielded (iter_from self i xs) = [].
Proof. intros H. destruct xs; simpl; [reflexivity | now rewrite H]. Qed.

(** The iteration yields the elements in front of the first check that
    sees the event set, and labels itself. *)
Lemma iter_from_first_stop (xs : list A) : forall i k,
  (k < length xs)%nat ->
  stop_requested self (i + k) = true ->
  (forall j, (j < k)%nat -> stop_requested self (i + j) = false) ->
  yielded (iter_from self i xs) = take k xs
  /\ description (iter_from self i xs) = Some "ABORTED".
Proof.
  induction xs as [|x xs IH]; intros i k Hk Hset Hbefore; simpl in *; [lia |].
  destruct k as [|k].
  - rewrite Nat.add_0_r in Hset. rewrite Hset. split; reflexivity.
  - assert (Hi : stop_requested self i = false)
      by (rewrite <- (Nat.add_0_r i); apply Hbefore; lia).
    rewrite Hi.
    destruct (IH (S i) k) as [Hy Hd].
    + lia.
    + now replace (S i + k)%nat with (i + S k)%nat by lia.
    + intros j Hj. replace (S i + j)%nat with (i + S j)%nat by lia.
      apply Hbefore. lia.
    + simpl. rewrite Hy, Hd. split; reflexivity.
Qed.

(** Without a check that sees the event set, every element is yielded;
    this covers an event that is set only after the last element was
    handed out. *)
Lemma iter_from_unobserved (xs : list A) : forall i,
  (forall j, (j < length xs)%nat -> stop_requested self (i + j) = false) ->
  iter_from self i xs = {| yielded := xs; description := None |}.
Proof.
  induction xs as [|x xs IH]; intros i H; simpl; [reflexivity |].
  assert (Hi : stop_requested self i = false)
    by (rewrite <- (Nat.add_0_r i); apply H; simpl; lia).
  rewrite Hi, IH; [reflexivity |].
  intros j Hj. replace (S i + j)%nat with (i + S j)%nat by lia.
  apply H. simpl. lia.
Qed.
End Iteration.

(** C9. Under a progress reporter that was given a stop signal: when the
    signal is set before the first element is yielded, nothing is produced;
    when it becomes set after [k] elements were yielded, with elements still
    to come ([0 < k < length xs]), the iteration stops at that step
    boundary with exactly those [k] elements, fewer than the requested
    total. *)
Theorem stop_signal_cuts_iteration {A : Type} (self : ProgressBarWrapper)
    (ev : Event) (xs : list A) :
  _stop_event self = Some ev ->
  (is_set ev 0 = true -> yielded (ProgressBarWrapper__call__ self xs) = [])
  /\ (forall k : nat,
        (0 < k < length xs)%nat ->
        (forall j, (j < k)%nat -> is_set ev j = false) ->
        is_set ev k = true ->
        yielded (ProgressBarWrapper__call__ self xs) = take k xs
        /\ length (yielded (ProgressBarWrapper__call__ self xs)) = k
        /\ (length (yielded (ProgressBarWrapper__call__ self xs)) < length xs)%nat
        /\ description (ProgressBarWrapper__call__ self xs) = Some "ABORTED").
Proof.
  intros Hev.
  assert (Hreq : forall i, stop_requested self i = is_set ev i)
    by (intros i; unfold stop_requested; now rewrite Hev).
  unfold ProgressBarWrapper__call__, InternalTqdm__iter__. split.
  - intros H0. apply iter_from_stopped. now rewrite Hreq.
  - intros k [Hk0 Hk] Hbefore Hset.
    destruct (iter_from_first_stop self xs 0 k) as [Hy Hd].
    + exact Hk.
    + simpl. now rewrite Hreq.
    + intros j Hj. simpl. rewrite Hreq. now apply Hbefore.
    + rewrite Hy, Hd, length_take. repeat split; lia.
Qed.

Lemma stop_signal_cuts_iteration_witness :
  yielded (ProgressBarWrapper__call__
             {| _progress_callback := None; _stop_event := Some (set_after 0) |}
             [10; 20; 30; 40]) = []
  /\ yielded (ProgressBarWrapper__call__
                {| _progress_callback := None; _stop_event := Some (set_after 2) |}
                [10; 20; 30; 40]) = [10; 20].
Proof.
  split.
  - apply (proj1 (stop_signal_cuts_iteration
             {| _progress_callback := None; _stop_event := Some (set_after 0) |}
             (set_after 0) [10; 20; 30; 40] eq_refl)).
    reflexivity.
  - apply (proj2 (stop_signal_cuts_iteration
             {| _progress_callback := None; _stop_event := Some (set_after 2) |}
             (set_after 2) [10; 20; 30; 40] eq_refl) 2%nat).
    + simpl. lia.
    + intros j Hj. destruct j as [|[|j]]; [reflexivity | reflexivity | lia].
    + reflexivity.
Defined.

(** An event that is set only once every element was handed out goes
    unnoticed: no check is left to observe it. *)
Lemma late_stop_signal_unobserved {A : Type} (cb : option string) (xs : list A) n :
  (length xs <= n)%nat ->
  ProgressBarWrapper__call__
    {| _progress_callback := cb; _stop_event := Some (set_after n) |} xs
  = {| yielded := xs; description := None |}.
Proof.
  intros Hn. apply iter_from_unobserved. intros j Hj.
  unfold stop_requested. simpl. apply Nat.leb_gt. lia.
Qed.

(** ** PipelineWrapper: what [generate] keeps *)

Lemma same_schedulers_refl w : same_schedulers w w.
Proof. repeat split. Qed.

Lemma same_schedulers_trans w1 w2 w3 :
  same_schedulers w1 w2 -> same_schedulers w2 w3 -> same_schedulers w1 w3.
Proof. unfold same_schedulers. intuition congruence. Qed.

Lemma same_schedulers_length w w' :
  same_schedulers w w' -> length (heap w') = length (heap w).
Proof.
  intros H. destruct H as (_ & _ & _ & _ & _ & _ & _ & H).
  apply (f_equal length) in H. now rewrite !length_fmap in H.
Qed.

Lemma same_schedulers_slot a w w' :
  same_schedulers w w' -> slot a w' = slot a w.
Proof. unfold same_schedulers. destruct a; simpl; intuition. Qed.

Lemma config_alter_runtime n i (h : list Scheduler) :
  config <$> alter (set_num_inference_steps n) i h = config <$> h.
Proof.
  revert i. induction h as [|s h IH]; intros [|i]; simpl; try reflexivity.
  f_equal. apply IH.
Qed.

Section GenerateFacts.
Variable pb : Generation_pb2.
Variable lib : Libraries.

Lemma selected_scheduler_same w w' s :
  same_schedulers w w' ->
  selected_scheduler pb w' s = selected_scheduler pb w s.
Proof.
  intros (_ & _ & H1 & H2 & H3 & H4 & H5 & _). unfold selected_scheduler.
  now rewrite H1, H2, H3, H4, H5.
Qed.

Lemma selected_scheduler_None w s :
  selected_scheduler pb w s = None <->
  exists v, s = Some v /\ v <> SAMPLER_DDPM pb /\ v <> SAMPLER_K_LMS pb
            /\ v <> SAMPLER_DDIM pb /\ v <> SAMPLER_K_EULER pb
            /\ v <> SAMPLER_K_EULER_ANCESTRAL pb.
Proof.
  unfold selected_scheduler. destruct s as [v|].
  - destruct (Z.eqb_spec v (SAMPLER_DDPM pb)), (Z.eqb_spec v (SAMPLER_K_LMS pb)),
      (Z.eqb_spec v (SAMPLER_DDIM pb)), (Z.eqb_spec v (SAMPLER_K_EULER pb)),
      (Z.eqb_spec v (SAMPLER_K_EULER_ANCESTRAL pb));
      (split; [intros H; try discriminate H; exists v; repeat split; auto
              | intros (v' & [= <-] & ?); intuition congruence]).
  - split; [discriminate | intros (v & H & _); discriminate].
Qed.

(** A seed that [manual_seed] refuses ends the call before anything else
    happens. *)
Lemma serve_seed_overflow w r :
  2 ^ 64 <= seed (r_params r) ->
  serve pb lib w r
  = (Raise (RuntimeError "Overflow when unpacking long"), w, []).
Proof.
  intros H. unfold serve, generate, manual_seed.
  destruct (Z.ltb_spec 0 (seed (r_params r))); [| lia].
  destruct (Z.ltb_spec (seed (r_params r)) (2 ^ 64)); [lia | reflexivity].
Qed.

Lemma serve_unsupported w r :
  seed (r_params r) < 2 ^ 64 ->
  selected_scheduler pb w (sampler (r_params r)) = None ->
  serve pb lib w r
  = (Raise (NotImplementedError "Scheduler not implemented"), w, []).
Proof.
  intros Hseed H. unfold serve, generate, manual_seed.
  destruct (Z.ltb_spec (seed (r_params r)) (2 ^ 64)); [| lia].
  destruct (0 <? seed (r_params r)); now rewrite H.
Qed.

Lemma serve_installs w r ref :
  seed (r_params r) < 2 ^ 64 ->
  selected_scheduler pb w (sampler (r_params r)) = Some ref ->
  scheduler (_pipeline (serve pb lib w r).1.2) = ref
  /\ progress_bar (_pipeline (serve pb lib w r).1.2)
     = Some {| _progress_callback := r_progress_callback r;
               _stop_event := r_stop_event r |}.
Proof.
  intros Hseed H. unfold serve, generate, manual_seed.
  destruct (Z.ltb_spec (seed (r_params r)) (2 ^ 64)); [| lia].
  destruct (0 <? seed (r_params r)); rewrite H;
    destruct (pipeline_call lib _ _ _); simpl; split; reflexivity.
Qed.

Lemma serve_same w r : same_schedulers w (serve pb lib w r).1.2.
Proof.
  unfold serve, generate, manual_seed.
  destruct (0 <? seed (r_params r));
    [destruct (seed (r_params r) <? 2 ^ 64); [| apply same_schedulers_refl] |];
    (destruct (selected_scheduler pb w _); [| apply same_schedulers_refl];
     destruct (pipeline_call lib _ _ _); simpl;
     repeat split; simpl; apply config_alter_runtime).
Qed.

Lemma serve_no_warning w r :
  Forall (fun e => forall s v, e <> DeprecationWarning s v) (serve pb lib w r).2.
Proof.
  unfold serve, generate, manual_seed.
  destruct (0 <? seed (r_params r));
    [destruct (seed (r_params r) <? 2 ^ 64); [| constructor] |];
    (destruct (selected_scheduler pb w _); [| constructor];
     destruct (pipeline_call lib _ _ _); simpl; unfold _autocast;
     destruct (Device_eqb (device (r_torch r) (_mode w)) cuda);
     repeat constructor; discriminate).
Qed.

Lemma generates_cons w r rs :
  generates pb lib w (r :: rs)
  = ((generates pb lib (serve pb lib w r).1.2 rs).1,
     ((serve pb lib w r).2 ++ (generates pb lib (serve pb lib w r).1.2 rs).2)%list).
Proof.
  simpl. destruct (serve pb lib w r) as [[res w1] out]. simpl.
  destruct (generates pb lib w1 rs). reflexivity.
Qed.

Lemma generates_same rs : forall w, same_schedulers w (generates pb lib w rs).1.
Proof.
  induction rs as [|r rs IH]; intros w; [apply same_schedulers_refl |].
  rewrite generates_cons. simpl.
  eapply same_schedulers_trans; [apply serve_same | apply IH].
Qed.

Lemma generates_no_warning rs : forall w,
  Forall (fun e => forall s v, e <> DeprecationWarning s v)
    (generates pb lib w rs).2.
Proof.
  induction rs as [|r rs IH]; intros w; [constructor |].
  rewrite generates_cons. simpl. apply Forall_app. split.
  - apply serve_no_warning.
  - apply IH.
Qed.
End GenerateFacts.

Lemma init_fields torch lib id mode pipeline objects :
  let w := (PipelineWrapper__init__ torch lib id mode pipeline objects).1 in
  _id w = id /\ _mode w = mode /\ _plms w = scheduler pipeline
  /\ heap w = (objects ++ [(_prepScheduler (constructed lib KLMS)).1;
                           (_prepScheduler (constructed lib DDIM)).1;
                           (_prepScheduler (constructed lib EULER)).1;
                           (_prepScheduler (constructed lib EULERA)).1])%list
  /\ _klms w = length objects /\ _ddim w = S (length objects)
  /\ _euler w = S (S (length objects))
  /\ _eulera w = S (S (S (length objects)))
  /\ (PipelineWrapper__init__ torch lib id mode pipeline objects).2
     = ((_prepScheduler (constructed lib KLMS)).2
        ++ (_prepScheduler (constructed lib DDIM)).2
        ++ (_prepScheduler (constructed lib EULER)).2
        ++ (_prepScheduler (constructed lib EULERA)).2)%list.
Proof.
  unfold PipelineWrapper__init__.
  destruct (_prepScheduler (constructed lib KLMS)),
    (_prepScheduler (constructed lib DDIM)),
    (_prepScheduler (constructed lib EULER)),
    (_prepScheduler (constructed lib EULERA)).
  simpl. repeat split; reflexivity.
Qed.

(** ** PipelineWrapper.generate *)

(** C4 (as the code has it). A [generate] call whose sampler is none of
    the five recognised values fails, emits nothing (the pipeline is not
    invoked) and leaves the wrapper as it was: neither a scheduler nor a
    progress reporter is installed.  The error is the unsupported-sampler
    error when the seed is below [2 ^ 64]; a larger seed is refused by
    [manual_seed], which runs before the sampler is looked at, and the call
    fails with that [RuntimeError] instead.  A call with a seed below
    [2 ^ 64] whose sampler is unset or is [SAMPLER_DDPM] installs [_plms],
    which on a wrapper built by [__init__] is the scheduler the pipeline
    came with. *)
Theorem generate_rejects_unsupported_sampler
    (torch : Torch) (pb : Generation_pb2) (lib : Libraries)
    (self : PipelineWrapper) (text : string) (params : Params)
    (image mask outmask : option Tensor) (negative_text : option string)
    (progress_callback : option string) (stop_event : option Event) :
  let call := generate torch pb lib self text params image mask outmask
                negative_text progress_callback stop_event in
  (forall v, sampler params = Some v ->
     v <> SAMPLER_DDPM pb -> v <> SAMPLER_K_LMS pb -> v <> SAMPLER_DDIM pb ->
     v <> SAMPLER_K_EULER pb -> v <> SAMPLER_K_EULER_ANCESTRAL pb ->
     (seed params < 2 ^ 64 ->
      call = (Raise (NotImplementedError "Scheduler not implemented"), self, []))
     /\ (2 ^ 64 <= seed params ->
         call = (Raise (RuntimeError "Overflow when unpacking long"), self, []))
     /\ (exists e, call = (Raise e, self, [])))
  /\ (sampler params = None \/ sampler params = Some (SAMPLER_DDPM pb) ->
      seed params < 2 ^ 64 ->
      scheduler (_pipeline call.1.2) = _plms self)
  /\ (forall torch0 id mode pipeline objects rs,
        self = (generates pb lib
                  (PipelineWrapper__init__ torch0 lib id mode pipeline objects).1
                  rs).1 ->
        _plms self = scheduler pipeline).
Proof.
  intros call.
  set (r := {| r_torch := torch; r_text := text; r_params := params;
               r_image := image; r_mask := mask; r_outmask := outmask;
               r_negative_text := negative_text;
               r_progress_callback := progress_callback;
               r_stop_event := stop_event |}).
  change call with (serve pb lib self r).
  split; [| split].
  - intros v Hv H1 H2 H3 H4 H5.
    assert (Hnone : selected_scheduler pb self (sampler (r_params r)) = None).
    { apply selected_scheduler_None. exists v. repeat split; assumption. }
    assert (Hlow : seed params < 2 ^ 64 ->
              serve pb lib self r
              = (Raise (NotImplementedError "Scheduler not implemented"), self, []))
      by (intros Hs; now apply serve_unsupported).
    assert (Hhigh : 2 ^ 64 <= seed params ->
              serve pb lib self r
              = (Raise (RuntimeError "Overflow when unpacking long"), self, []))
      by (intros Hs; now apply serve_seed_overflow).
    split; [exact Hlow | split; [exact Hhigh |]].
    destruct (Z.lt_ge_cases (seed params) (2 ^ 64)) as [Hs | Hs].
    + eexists. now apply Hlow.
    + eexists. now apply Hhigh.
  - intros Hs Hseed. apply serve_installs; [exact Hseed |]. simpl.
    destruct Hs as [-> | ->]; simpl; [reflexivity |].
    now rewrite Z.eqb_refl.
  - intros torch0 id mode pipeline objects rs ->.
    destruct (generates_same pb lib rs
                (PipelineWrapper__init__ torch0 lib id mode pipeline objects).1)
      as (_ & _ & -> & _).
    apply init_fields.
Qed.

Lemma generate_rejects_unsupported_sampler_witness :
  serve sample_pb2 sample_lib sample_wrapper (sample_request (Some 9))
  = (Raise (NotImplementedError "Scheduler not implemented"), sample_wrapper, [])
  /\ scheduler (_pipeline
       (serve sample_pb2 sample_lib sample_wrapper (sample_request None)).1.2)
     = _plms sample_wrapper.
Proof.
  split.
  - apply (proj1 (proj1 (generate_rejects_unsupported_sampler with_cuda
             sample_pb2 sample_lib sample_wrapper "a lighthouse at dusk"
             (sample_params (Some 9)) None None None None None None) 9
             eq_refl ltac:(discriminate) ltac:(discriminate)
             ltac:(discriminate) ltac:(discriminate) ltac:(discriminate))).
    reflexivity.
  - apply (proj1 (proj2 (generate_rejects_unsupported_sampler with_cuda
             sample_pb2 sample_lib sample_wrapper "a lighthouse at dusk"
             (sample_params None) None None None None None None)));
      [left; reflexivity | reflexivity].
Defined.

(** C4, as stated, fails: a call with the unrecognised sampler value 9 and
    the seed [2 ^ 64] does not fail with the unsupported-sampler error; it
    fails earlier, with the [RuntimeError] of [manual_seed]. *)
Lemma unsupported_sampler_after_refused_seed :
  sampler (refused_seed_params (Some 9)) = Some 9
  /\ recognised sample_pb2 (Some 9) = false
  /\ (generate with_cuda sample_pb2 sample_lib sample_wrapper
        "a lighthouse at dusk" (refused_seed_params (Some 9))
        None None None None None None).1.1
     = Raise (RuntimeError "Overflow when unpacking long")
  /\ (generate with_cuda sample_pb2 sample_lib sample_wrapper
        "a lighthouse at dusk" (refused_seed_params (Some 9))
        None None None None None None).1.1
     <> Raise (NotImplementedError "Scheduler not implemented").
Proof.
  split; [reflexivity |]. split; [reflexivity |].
  split; [reflexivity | discriminate].
Qed.

(** C8. The scheduler that [generate] installs depends on the sampler value
    alone: two calls on a wrapper with the same (recognised) sampler,
    whatever calls lie between them, install the same reference, which is
    the one selected among the fields fixed at construction.  A call
    installs its scheduler unless [manual_seed] refused the seed (a seed of
    [2 ^ 64] or more), in which case the call has failed before and the
    wrapper is as it was.  No call adds a scheduler object: the wrapper
    keeps the objects it was built with, the pipeline's own and the four
    alternates. *)
Theorem scheduler_selection_reuses_instances
    (pb : Generation_pb2) (lib : Libraries) (self : PipelineWrapper)
    (r1 r2 : Request) (between : list Request) (ref : nat) :
  let after1 := (serve pb lib self r1).1.2 in
  let before2 := (generates pb lib after1 between).1 in
  let after2 := (serve pb lib before2 r2).1.2 in
  sampler (r_params r1) = sampler (r_params r2) ->
  selected_scheduler pb self (sampler (r_params r1)) = Some ref ->
  (seed (r_params r1) < 2 ^ 64 -> scheduler (_pipeline after1) = ref)
  /\ (seed (r_params r2) < 2 ^ 64 -> scheduler (_pipeline after2) = ref)
  /\ (2 ^ 64 <= seed (r_params r1) -> after1 = self)
  /\ (2 ^ 64 <= seed (r_params r2) -> after2 = before2)
  /\ ref ∈ [_plms self; _klms self; _ddim self; _euler self; _eulera self]
  /\ length (heap after2) = length (heap self)
  /\ (forall torch0 id mode pipeline objects,
        self = (PipelineWrapper__init__ torch0 lib id mode pipeline objects).1 ->
        length (heap after2) = (length objects + 4)%nat).
Proof.
  intros after1 before2 after2 Hsame Hsel.
  assert (S1 : same_schedulers self after1) by apply serve_same.
  assert (S2 : same_schedulers self before2).
  { eapply same_schedulers_trans; [exact S1 | apply generates_same]. }
  assert (S3 : same_schedulers self after2).
  { eapply same_schedulers_trans; [exact S2 | apply serve_same]. }
  split; [| split; [| split; [| split; [| split; [| split]]]]].
  - intros Hseed. now apply serve_installs.
  - intros Hseed. apply serve_installs; [exact Hseed |]. rewrite <- Hsame.
    now rewrite (selected_scheduler_same pb self before2).
  - intros Hseed. unfold after1. now rewrite serve_seed_overflow.
  - intros Hseed. unfold after2. now rewrite serve_seed_overflow.
  - revert Hsel. unfold selected_scheduler.
    destruct (sampler (r_params r1)) as [v|].
    + repeat case_match; intros [= <-]; set_solver.
    + intros [= <-]. set_solver.
  - now apply same_schedulers_length.
  - intros torch0 id mode pipeline objects Hself.
    rewrite (same_schedulers_length _ _ S3), Hself.
    destruct (init_fields torch0 lib id mode pipeline objects)
      as (_ & _ & _ & -> & _).
    rewrite length_app. reflexivity.
Qed.

Lemma scheduler_selection_reuses_instances_witness :
  scheduler (_pipeline
      (serve sample_pb2 sample_lib sample_wrapper (sample_request (Some 0))).1.2)
  = 2%nat
  /\ scheduler (_pipeline
       (serve sample_pb2 sample_lib
          (generates sample_pb2 sample_lib
             (serve sample_pb2 sample_lib sample_wrapper
                (sample_request (Some 0))).1.2
             [sample_request (Some 7); sample_request None]).1
          (sample_request (Some 0))).1.2)
     = 2%nat.
Proof.
  destruct (scheduler_selection_reuses_instances sample_pb2 sample_lib
              sample_wrapper (sample_request (Some 0)) (sample_request (Some 0))
              [sample_request (Some 7); sample_request None] 2%nat
              eq_refl eq_refl) as (H1 & H2 & _).
  split; [apply H1 | apply H2]; reflexivity.
Defined.

(** ** PipelineWrapper._prepScheduler *)

Lemma _prepScheduler_migrates s v :
  config s !! "steps_offset" = Some v ->
  py_ne_int v 1 = true ->
  _prepScheduler s
  = (set__internal_dict (set_format s "pt")
       (<["steps_offset" := PyInt 1]> (config s)),
     [DeprecationWarning (set_format s "pt") v]).
Proof. intros Hv Hne. unfold _prepScheduler. simpl. now rewrite Hv, Hne. Qed.

Lemma _prepScheduler_idempotent s :
  _prepScheduler (_prepScheduler s).1 = ((_prepScheduler s).1, []).
Proof.
  destruct (config s !! "steps_offset") as [v|] eqn:Hv;
    [destruct (py_ne_int v 1) eqn:Hne |];
    unfold _prepScheduler; simpl; rewrite Hv, ?Hne; simpl;
    rewrite ?lookup_insert_eq, ?Hv, ?Hne; reflexivity.
Qed.

Lemma init_slot torch lib id mode pipeline objects a :
  let w := (PipelineWrapper__init__ torch lib id mode pipeline objects).1 in
  heap w !! slot a w = Some (_prepScheduler (constructed lib a)).1.
Proof.
  intros w.
  destruct (init_fields torch lib id mode pipeline objects)
    as (_ & _ & _ & Hh & H1 & H2 & H3 & H4 & _).
  fold w in Hh, H1, H2, H3, H4. rewrite Hh.
  destruct a; simpl; rewrite ?H1, ?H2, ?H3, ?H4;
    rewrite lookup_app_r by lia;
    match goal with
    | |- _ !! ?i = _ =>
        first [ replace i with 0%nat by lia | replace i with 1%nat by lia
              | replace i with 2%nat by lia | replace i with 3%nat by lia ]
    end; reflexivity.
Qed.

(** C6. A scheduler constructed by the wrapper whose configuration carries
    a [steps_offset] other than 1 is migrated when the wrapper is built:
    [steps_offset] becomes 1 and that one [_prepScheduler] call emits one
    deprecation warning (the warnings of [__init__] are those of its four
    [_prepScheduler] calls).  Migrating again changes nothing and warns no
    more, and after any number of [generate] calls the scheduler kept in the
    same field still reads [steps_offset = 1], no call having warned. *)
Theorem steps_offset_migrated_once
    (torch : Torch) (pb : Generation_pb2) (lib : Libraries) (id : string)
    (mode : EngineMode) (pipeline : Pipeline) (objects : list Scheduler)
    (a : Alternate) (v : pyval) (rs : list Request) :
  config (constructed lib a) !! "steps_offset" = Some v ->
  py_ne_int v 1 = true ->
  let migrated := (_prepScheduler (constructed lib a)).1 in
  let built := PipelineWrapper__init__ torch lib id mode pipeline objects in
  let served := generates pb lib built.1 rs in
  config migrated !! "steps_offset" = Some (PyInt 1)
  /\ (_prepScheduler (constructed lib a)).2
     = [DeprecationWarning (set_format (constructed lib a) "pt") v]
  /\ built.2 = ((_prepScheduler (constructed lib KLMS)).2
                ++ (_prepScheduler (constructed lib DDIM)).2
                ++ (_prepScheduler (constructed lib EULER)).2
                ++ (_prepScheduler (constructed lib EULERA)).2)%list
  /\ heap built.1 !! slot a built.1 = Some migrated
  /\ _prepScheduler migrated = (migrated, [])
  /\ (exists s, heap served.1 !! slot a served.1 = Some s
                /\ config s !! "steps_offset" = Some (PyInt 1))
  /\ Forall (fun e => forall s w, e <> DeprecationWarning s w) served.2.
Proof.
  intros Hv Hne migrated built served.
  assert (Hm : config migrated !! "steps_offset" = Some (PyInt 1)).
  { unfold migrated. rewrite (_prepScheduler_migrates _ v Hv Hne). simpl.
    apply lookup_insert_eq. }
  assert (Hslot : heap built.1 !! slot a built.1 = Some migrated)
    by apply init_slot.
  repeat split.
  - exact Hm.
  - now rewrite (_prepScheduler_migrates _ v Hv Hne).
  - apply init_fields.
  - exact Hslot.
  - apply _prepScheduler_idempotent.
  - pose proof (generates_same pb lib rs built.1) as Hsame.
    fold served in Hsame.
    rewrite (same_schedulers_slot a _ _ Hsame).
    destruct Hsame as (_ & _ & _ & _ & _ & _ & _ & Hcfg).
    assert (Hl : (config <$> heap served.1) !! slot a built.1
                 = Some (config migrated))
      by (rewrite Hcfg, list_lookup_fmap, Hslot; reflexivity).
    rewrite list_lookup_fmap in Hl.
    destruct (heap served.1 !! slot a built.1) as [s|]; [| discriminate].
    exists s. split; [reflexivity |]. simpl in Hl. injection Hl as ->. exact Hm.
  - apply generates_no_warning.
Qed.

Lemma steps_offset_migrated_once_witness :
  config (constructed sample_lib DDIM) !! "steps_offset" = Some (PyInt 0)
  /\ config (_prepScheduler (constructed sample_lib DDIM)).1 !! "steps_offset"
     = Some (PyInt 1).
Proof.
  split; [reflexivity |].
  apply (steps_offset_migrated_once with_cuda sample_pb2 sample_lib "A"
           EngineMode_default (_pipeline sample_wrapper) [] DDIM (PyInt 0)
           [sample_request (Some 0); sample_request (Some 0)]);
    reflexivity.
Defined.

(** ** EngineManager.buildPipeline *)

(** [__init__] casts and configures the pipeline it is given, but neither
    moves it nor changes where it was loaded from. *)
Lemma init_pipeline torch lib id mode pipeline objects :
  let p := _pipeline (PipelineWrapper__init__ torch lib id mode pipeline objects).1 in
  weight_path p = weight_path pipeline
  /\ pipeline_class p = pipeline_class pipeline
  /\ unet_device p = unet_device pipeline
  /\ modules_device p = modules_device pipeline.
Proof.
  unfold PipelineWrapper__init__.
  destruct (_prepScheduler (constructed lib KLMS)),
    (_prepScheduler (constructed lib DDIM)),
    (_prepScheduler (constructed lib EULER)),
    (_prepScheduler (constructed lib EULERA)).
  destruct (fp16 torch mode), (cuda_only_unet torch mode),
    (attention_slice torch mode); simpl; repeat split; reflexivity.
Qed.

Lemma buildPipeline_Some os_path torch lib self engine w warned :
  buildPipeline os_path torch lib self engine = (Ok (Some w), warned) ->
  exists pipeline objects,
    w = (PipelineWrapper__init__ torch lib (e_id engine) (_mode' self)
           pipeline objects).1
    /\ weight_path pipeline
       = _getWeightPath os_path self (e_model engine) (e_local_model engine)
    /\ unet_device pipeline = cpu /\ modules_device pipeline = cpu.
Proof.
  unfold buildPipeline.
  destruct (if String.eqb (_nsfw self) "flag" then _ else _) as [safety|e];
    [| discriminate].
  cbv zeta. unfold from_pretrained.
  destruct (String.eqb (e_class engine) "StableDiffusionPipeline");
    [| destruct (String.eqb (e_class engine) "UnifiedPipeline");
       [| discriminate]];
    (destruct (load_weights lib _ _ _) as [s|e]; [| discriminate];
     match goal with
     | |- context [PipelineWrapper__init__ ?t ?l ?i ?m ?p ?o] =>
         destruct (PipelineWrapper__init__ t l i m p o) as [w0 out] eqn:E;
         intros [= <- <-]; exists p, o
     end;
     rewrite E; repeat split; reflexivity).
Qed.

(** C7. [buildPipeline] loads the weights from the location that
    [_getWeightPath] resolves: a local path that is given is taken as it is
    when absolute and joined to the weight root otherwise, then normalised,
    and used if that directory exists; without a local path, or when the
    resolved directory does not exist, the remote model identifier is
    used. *)
Theorem buildPipeline_weight_location
    (os_path : OsPath) (torch : Torch) (lib : Libraries)
    (self : EngineManager) (engine : EngineConfig) :
  let resolved local_path :=
    normpath os_path
      (if isabs os_path local_path then local_path
       else join os_path (_weight_root self) local_path) in
  let location :=
    _getWeightPath os_path self (e_model engine) (e_local_model engine) in
  (forall w warned,
     buildPipeline os_path torch lib self engine = (Ok (Some w), warned) ->
     weight_path (_pipeline w) = location)
  /\ (forall local_path,
        e_local_model engine = Some local_path -> local_path <> "" ->
        isdir os_path (resolved local_path) = true ->
        location = resolved local_path)
  /\ (forall local_path,
        e_local_model engine = Some local_path ->
        isdir os_path (resolved local_path) = false ->
        location = e_model engine)
  /\ (e_local_model engine = None \/ e_local_model engine = Some "" ->
      location = e_model engine).
Proof.
  intros resolved location. split; [| split; [| split]].
  - intros w warned H.
    apply buildPipeline_Some in H as (pipeline & objects & -> & Hp & _).
    destruct (init_pipeline torch lib (e_id engine) (_mode' self) pipeline objects)
      as (-> & _).
    exact Hp.
  - intros l Hl Hne Hdir. unfold location, _getWeightPath. rewrite Hl.
    destruct (String.eqb_spec l ""); [contradiction |].
    fold (resolved l). now rewrite Hdir.
  - intros l Hl Hdir. unfold location, _getWeightPath. rewrite Hl.
    destruct (String.eqb l ""); [reflexivity |].
    fold (resolved l). now rewrite Hdir.
  - intros [H | H]; unfold location, _getWeightPath; rewrite H; reflexivity.
Qed.

Lemma buildPipeline_weight_location_witness :
  _getWeightPath sample_os sample_manager "CompVis/stable-diffusion-v1-4"
    (Some "sd-v1-4") = "weights/sd-v1-4"
  /\ _getWeightPath sample_os sample_manager "CompVis/stable-diffusion-v1-4"
       (Some "sd-v2") = "CompVis/stable-diffusion-v1-4"
  /\ (weight_path ∘ _pipeline) <$> _pipelines sample_manager !! "A"
     = Some "weights/sd-v1-4".
Proof.
  pose proof (buildPipeline_weight_location sample_os with_cuda sample_lib
                sample_manager (engine "A" (Some "sd-v1-4") (Some true)))
    as (Hbuilt & Hlocal & _).
  pose proof (buildPipeline_weight_location sample_os with_cuda sample_lib
                sample_manager (engine "A" (Some "sd-v2") (Some true)))
    as (_ & _ & Hmissing & _).
  split; [| split].
  - apply (Hlocal "sd-v1-4"); [reflexivity | discriminate | reflexivity].
  - apply (Hmissing "sd-v2"); reflexivity.
  - reflexivity.
Defined.

(** ** EngineManager.loadPipelines and getStatus *)

Section Loading.
Variable os_path : OsPath.
Variable torch : Torch.
Variable lib : Libraries.

Lemma buildPipeline_id self engine w warned :
  buildPipeline os_path torch lib self engine = (Ok (Some w), warned) ->
  _id w = e_id engine /\ host_resident (_pipeline w) = true.
Proof.
  intros H.
  apply buildPipeline_Some in H as (pipeline & objects & -> & _ & Hu & Hm).
  split; [apply init_fields |].
  destruct (init_pipeline torch lib (e_id engine) (_mode' self) pipeline objects)
    as (_ & _ & Hu' & Hm').
  unfold host_resident. now rewrite Hu', Hm', Hu, Hm.
Qed.

(** An engine whose [enabled] is not true is passed over by the loop. *)
Lemma loadPipelines_from_skip e after : forall before self,
  get (e_enabled e) false = false ->
  loadPipelines_from os_path torch lib self (before ++ e :: after)
  = loadPipelines_from os_path torch lib self (before ++ after).
Proof.
  induction before as [|c before IH]; intros self He; simpl.
  - now rewrite He.
  - destruct (negb (get (e_enabled c) false)); [now apply IH |].
    destruct (buildPipeline os_path torch lib self c) as [[[pipe|]|ex] warned];
      try reflexivity.
    now rewrite IH.
Qed.

(** The loop changes neither the engine list nor the active pointer, and
    it registers pipelines only under identifiers of enabled engines. *)
Lemma loadPipelines_from_frame todo : forall self,
  let loaded := (loadPipelines_from os_path torch lib self todo).1.2 in
  engines loaded = engines self
  /\ _active loaded = _active self
  /\ (forall k, (forall c, c ∈ todo -> e_id c = k ->
                           get (e_enabled c) false = false) ->
                _pipelines loaded !! k = _pipelines self !! k)
  /\ ((forall k w, _pipelines self !! k = Some w ->
                   host_resident (_pipeline w) = true) ->
      forall k w, _pipelines loaded !! k = Some w ->
                  host_resident (_pipeline w) = true).
Proof.
  induction todo as [|c todo IH]; intros self; simpl.
  - repeat split; auto.
  - destruct (get (e_enabled c) false) eqn:Hc; simpl.
    + destruct (buildPipeline os_path torch lib self c)
        as [[[pipe|]|ex] warned] eqn:Hb; simpl.
      * apply buildPipeline_id in Hb as [Hid Hhost].
        match goal with
        | |- context [loadPipelines_from _ _ _ ?s todo] =>
            specialize (IH s);
            destruct (loadPipelines_from os_path torch lib s todo)
              as [[r self2] warned'] eqn:E
        end.
        simpl in IH |- *. destruct IH as (He & Ha & Hk & Hh).
        repeat split; [exact He | exact Ha | |].
        -- intros k Hnone. rewrite Hk.
           ++ simpl. apply lookup_insert_ne. rewrite Hid. intros Heq.
              specialize (Hnone c (list_elem_of_here _ _) Heq). congruence.
           ++ intros c' Hin. apply Hnone. now apply list_elem_of_further.
        -- intros Hall. apply Hh. simpl. intros k w Hkw.
           destruct (decide (_id pipe = k)) as [<-|Hne].
           ++ rewrite lookup_insert_eq in Hkw. now injection Hkw as <-.
           ++ rewrite lookup_insert_ne in Hkw by exact Hne. eauto.
      * repeat split; auto.
      * repeat split; auto.
    + destruct (IH self) as (He & Ha & Hk & Hh).
      repeat split; [exact He | exact Ha | | exact Hh].
      intros k Hnone. apply Hk. intros c' Hin. apply Hnone.
      now apply list_elem_of_further.
Qed.

(** The readiness map lists exactly the identifiers of the engines whose
    [enabled] is not false, each with whether it is registered. *)
Lemma getStatus_lookup self k :
  getStatus self !! k
  = if existsb (fun c => get (e_enabled c) true && String.eqb (e_id c) k)
         (engines self)
    then Some (registered self k) else None.
Proof.
  unfold getStatus.
  assert (H : forall l (status : gmap string bool),
    foldl (fun status engine =>
             if get (e_enabled engine) true
             then <[e_id engine := registered self (e_id engine)]> status
             else status) status l !! k
    = if existsb (fun c => get (e_enabled c) true && String.eqb (e_id c) k) l
      then Some (registered self k) else status !! k).
  { induction l as [|c l IH]; intros status; simpl; [reflexivity |].
    rewrite IH. destruct (existsb _ l); [now rewrite orb_true_r |].
    rewrite orb_false_r. destruct (get (e_enabled c) true); simpl; [| reflexivity].
    destruct (String.eqb_spec (e_id c) k) as [->|Hne].
    - apply lookup_insert_eq.
    - now apply lookup_insert_ne. }
  rewrite H. now rewrite lookup_empty.
Qed.
End Loading.

Lemma existsb_false_iff {A} (f : A -> bool) (l : list A) :
  existsb f l = false <-> forall x, x ∈ l -> f x = false.
Proof.
  split.
  - intros H x Hx. destruct (f x) eqn:E; [| reflexivity].
    rewrite <- H. symmetry. apply existsb_exists. exists x.
    split; [now apply list_elem_of_In | exact E].
  - intros H. destruct (existsb f l) eqn:E; [| reflexivity].
    apply existsb_exists in E as (x & Hx & Hf).
    rewrite H in Hf by now apply list_elem_of_In. discriminate.
Qed.

(** C5 (as the code has it). An engine marked [enabled: false] is passed
    over by [loadPipelines].  When every configuration that carries its
    identifier is so marked, no pipeline is registered under the identifier
    and [getStatus] leaves the identifier out of the readiness map: it is
    not reported at all, rather than mapped to [false]. *)
Theorem disabled_engine_skipped_and_unlisted
    (os_path : OsPath) (torch : Torch) (lib : Libraries)
    (self : EngineManager) (before after : list EngineConfig) (e : EngineConfig) :
  engines self = (before ++ e :: after)%list ->
  e_enabled e = Some false ->
  let loaded := (loadPipelines os_path torch lib self).1.2 in
  loadPipelines os_path torch lib self
  = loadPipelines_from os_path torch lib self (before ++ after)
  /\ ((forall c, c ∈ (before ++ after)%list -> e_id c = e_id e ->
                 e_enabled c = Some false) ->
      _pipelines self !! e_id e = None ->
      _pipelines loaded !! e_id e = None
      /\ getStatus loaded !! e_id e = None).
Proof.
  intros Hengines He loaded. split.
  - unfold loadPipelines. rewrite Hengines.
    apply loadPipelines_from_skip. now rewrite He.
  - intros Hothers Hfree.
    assert (Hall : forall c, c ∈ engines self -> e_id c = e_id e ->
                             e_enabled c = Some false).
    { intros c Hc Hid. rewrite Hengines in Hc.
      apply elem_of_app in Hc as [Hc | Hc].
      - apply Hothers; [apply elem_of_app; now left | exact Hid].
      - apply elem_of_cons in Hc as [-> | Hc]; [exact He |].
        apply Hothers; [apply elem_of_app; now right | exact Hid]. }
    destruct (loadPipelines_from_frame os_path torch lib (engines self) self)
      as (Heng & _ & Hkeep & _).
    fold (loadPipelines os_path torch lib self) in Heng, Hkeep.
    fold loaded in Heng, Hkeep. split.
    + rewrite Hkeep; [exact Hfree |].
      intros c Hc Hid. now rewrite (Hall c Hc Hid).
    + rewrite getStatus_lookup, Heng.
      replace (existsb _ (engines self)) with false; [reflexivity |].
      symmetry. apply existsb_false_iff. intros c Hc.
      destruct (String.eqb_spec (e_id c) (e_id e)) as [Hid|];
        [| apply andb_false_r].
      now rewrite (Hall c Hc Hid).
Qed.

Lemma disabled_engine_skipped_and_unlisted_witness :
  _pipelines sample_manager !! "C" = None
  /\ getStatus sample_manager !! "C" = None.
Proof.
  apply (disabled_engine_skipped_and_unlisted sample_os with_cuda sample_lib
           (EngineManager__init__ sample_engines "./weights" EngineMode_default
              "block" None)
           [engine "A" (Some "sd-v1-4") (Some true); engine "B" None (Some true)]
           [engine "D" None None]
           (engine "C" None (Some false)) eq_refl eq_refl).
  - intros c Hc Hid.
    repeat (apply elem_of_cons in Hc as [-> | Hc]; [discriminate Hid |]).
    now apply elem_of_nil in Hc.
  - reflexivity.
Defined.

(** C5, as stated, fails: the sample installation has engine ["C"] marked
    [enabled: false], and its readiness map has no entry for ["C"], so it
    does not map ["C"] to [false]. *)
Lemma disabled_engine_not_mapped_to_false :
  engine "C" None (Some false) ∈ engines sample_manager
  /\ e_enabled (engine "C" None (Some false)) = Some false
  /\ getStatus sample_manager !! "C" = None
  /\ getStatus sample_manager !! "C" <> Some false.
Proof.
  split; [| split; [| split]].
  - apply list_elem_of_In. vm_compute. tauto.
  - reflexivity.
  - vm_compute. reflexivity.
  - vm_compute. discriminate.
Qed.

(** C10 (as the code has it). An engine that has no [enabled] key is passed
    over by [loadPipelines] and listed by [getStatus], with the value
    "is a pipeline registered under its identifier".  That value is [false]
    after loading whenever no configuration with the same identifier is
    enabled and nothing was registered under it before. *)
Theorem engine_without_enabled_listed_not_ready
    (os_path : OsPath) (torch : Torch) (lib : Libraries)
    (self : EngineManager) (before after : list EngineConfig) (e : EngineConfig) :
  engines self = (before ++ e :: after)%list ->
  e_enabled e = None ->
  let loaded := (loadPipelines os_path torch lib self).1.2 in
  loadPipelines os_path torch lib self
  = loadPipelines_from os_path torch lib self (before ++ after)
  /\ getStatus loaded !! e_id e = Some (registered loaded (e_id e))
  /\ ((forall c, c ∈ (before ++ after)%list -> e_id c = e_id e ->
                 get (e_enabled c) false = false) ->
      _pipelines self !! e_id e = None ->
      getStatus loaded !! e_id e = Some false).
Proof.
  intros Hengines He loaded.
  destruct (loadPipelines_from_frame os_path torch lib (engines self) self)
    as (Heng & _ & Hkeep & _).
  fold (loadPipelines os_path torch lib self) in Heng, Hkeep.
  fold loaded in Heng, Hkeep.
  assert (Hlisted : getStatus loaded !! e_id e = Some (registered loaded (e_id e))).
  { rewrite getStatus_lookup, Heng.
    replace (existsb _ (engines self)) with true; [reflexivity |].
    symmetry. apply existsb_exists. exists e. split.
    - rewrite Hengines. apply in_or_app. right. now left.
    - rewrite He. simpl. apply String.eqb_refl. }
  split; [| split].
  - unfold loadPipelines. rewrite Hengines.
    apply loadPipelines_from_skip. now rewrite He.
  - exact Hlisted.
  - intros Hothers Hfree. rewrite Hlisted. f_equal.
    unfold registered. rewrite Hkeep, Hfree; [reflexivity |].
    intros c Hc Hid. rewrite Hengines in Hc.
    apply elem_of_app in Hc as [Hc | Hc].
    + apply Hothers; [apply elem_of_app; now left | exact Hid].
    + apply elem_of_cons in Hc as [-> | Hc]; [now rewrite He |].
      apply Hothers; [apply elem_of_app; now right | exact Hid].
Qed.

Lemma engine_without_enabled_listed_not_ready_witness :
  getStatus sample_manager !! "D" = Some false.
Proof.
  apply (engine_without_enabled_listed_not_ready sample_os with_cuda sample_lib
           (EngineManager__init__ sample_engines "./weights" EngineMode_default
              "block" None)
           [engine "A" (Some "sd-v1-4") (Some true); engine "B" None (Some true);
            engine "C" None (Some false)]
           []
           (engine "D" None None) eq_refl eq_refl).
  - intros c Hc Hid.
    repeat (apply elem_of_cons in Hc as [-> | Hc]; [discriminate Hid |]).
    now apply elem_of_nil in Hc.
  - reflexivity.
Defined.

(** C10, as stated, fails when an enabled configuration shares the
    identifier: the second engine of [twin_engines] has no [enabled] key,
    is passed over by [loadPipelines], and yet appears in the readiness map
    with the value [true]. *)
Lemma engine_without_enabled_mapped_to_true :
  engine "A" None None ∈ engines twin_manager
  /\ e_enabled (engine "A" None None) = None
  /\ getStatus twin_manager !! e_id (engine "A" None None) = Some true.
Proof.
  split; [| split].
  - apply list_elem_of_In. vm_compute. tauto.
  - reflexivity.
  - vm_compute. reflexivity.
Qed.

(** ** EngineManager.getPipe *)

Lemma deactivate_host torch w :
  host_resident (_pipeline (deactivate torch w).1) = true.
Proof. reflexivity. Qed.

Lemma activate_resident torch w :
  device torch (_mode w) <> cpu ->
  accelerator_resident (_pipeline (activate torch w)) = true.
Proof.
  intros Hdev. unfold activate.
  destruct (cuda_only_unet torch (_mode w)); [reflexivity |].
  unfold accelerator_resident, host_resident. simpl.
  destruct (device torch (_mode w)); [reflexivity | reflexivity | congruence].
Qed.

Lemma activate_mode torch w : _mode (activate torch w) = _mode w.
Proof. unfold activate. now destruct (cuda_only_unet torch (_mode w)). Qed.

Section GetPipe.
Variable torch : Torch.

(** The fast path: the requested wrapper is the active one. *)
Lemma getPipe_active self id :
  _active self = Some id -> getPipe torch self id = (Ok id, self, []).
Proof. intros H. unfold getPipe. now rewrite H, String.eqb_refl. Qed.

(** The slow path, in the two outcomes of the lookup. *)
Lemma getPipe_switch self id :
  _active self <> Some id ->
  (getPipe torch self id).1
  = match released torch self !! id with
    | None =>
        (Raise (KeyError id),
         with_pipelines self (_default self) (released torch self))
    | Some w =>
        (Ok id,
         with_active
           (with_pipelines self (_default self)
              (<[id := activate torch w]> (released torch self)))
           (Some id))
    end.
Proof.
  intros Hne. unfold getPipe, released.
  destruct (_active self) as [a|].
  - destruct (String.eqb_spec id a) as [->|_]; [congruence |].
    destruct (_pipelines self !! a) as [w|]; simpl;
      match goal with |- context [?m !! id] => destruct (m !! id) end;
      reflexivity.
  - destruct (_pipelines self !! id); reflexivity.
Qed.

Lemma released_lookup self k :
  released torch self !! k
  = if decide (_active self = Some k)
    then (fun w => (deactivate torch w).1) <$> _pipelines self !! k
    else _pipelines self !! k.
Proof.
  unfold released. destruct (_active self) as [a|]; [| now case_decide].
  case_decide as Hk.
  - injection Hk as ->. destruct (_pipelines self !! k) as [w|] eqn:E.
    + now rewrite lookup_insert_eq.
    + now rewrite E.
  - destruct (_pipelines self !! a); [| reflexivity].
    apply lookup_insert_ne. congruence.
Qed.

Lemma released_host self :
  others_host_resident self ->
  forall k w, released torch self !! k = Some w -> host_resident (_pipeline w) = true.
Proof.
  intros Hothers k w. rewrite released_lookup. case_decide as Hk.
  - destruct (_pipelines self !! k); [| discriminate].
    intros [= <-]. reflexivity.
  - intros Hw. now apply (Hothers k).
Qed.

Lemma released_modes self :
  _mode <$> released torch self = _mode <$> _pipelines self.
Proof.
  apply map_eq. intros k. rewrite !lookup_fmap, released_lookup.
  case_decide; [| reflexivity]. now destruct (_pipelines self !! k).
Qed.

(** Whatever the outcome, every wrapper other than the active one stays
    on the host. *)
Lemma getPipe_others_host self id :
  others_host_resident self ->
  others_host_resident (getPipe torch self id).1.2.
Proof.
  intros Hothers. destruct (decide (_active self = Some id)) as [Ha|Ha].
  - now rewrite (getPipe_active _ _ Ha).
  - rewrite (getPipe_switch _ _ Ha).
    destruct (released torch self !! id) as [w|] eqn:E; simpl.
    + intros k w' Hk Hne. simpl in Hk, Hne.
      rewrite lookup_insert_ne in Hk by congruence.
      now apply (released_host self Hothers k).
    + intros k w' Hk _. simpl in Hk.
      now apply (released_host self Hothers k).
Qed.

Lemma getPipe_modes self id :
  _mode <$> _pipelines (getPipe torch self id).1.2 = _mode <$> _pipelines self.
Proof.
  destruct (decide (_active self = Some id)) as [Ha|Ha].
  - now rewrite (getPipe_active _ _ Ha).
  - rewrite (getPipe_switch _ _ Ha).
    destruct (released torch self !! id) as [w|] eqn:E; simpl.
    + rewrite fmap_insert, activate_mode, insert_id; [apply released_modes |].
      now rewrite lookup_fmap, E.
    + apply released_modes.
Qed.

(** A call for a registered identifier, made while the resolved device of
    the requested wrapper is an accelerator, keeps the active wrapper
    accelerator-resident. *)
Lemma getPipe_active_resident self id w :
  _pipelines self !! id = Some w ->
  device torch (_mode w) <> cpu ->
  active_resident self ->
  active_resident (getPipe torch self id).1.2.
Proof.
  intros Hw Hdev Hact. destruct (decide (_active self = Some id)) as [Ha|Ha].
  - now rewrite (getPipe_active _ _ Ha).
  - rewrite (getPipe_switch _ _ Ha).
    assert (Hr : released torch self !! id = Some w).
    { rewrite released_lookup. now case_decide. }
    rewrite Hr. intros a [= <-]. simpl.
    exists (activate torch w). rewrite lookup_insert_eq.
    split; [reflexivity | now apply activate_resident].
Qed.

(** A call for an unknown identifier raises [KeyError] and keeps the
    active pointer, but only after the active wrapper was moved to the
    host. *)
Lemma getPipe_unknown self id :
  _pipelines self !! id = None ->
  _active self <> Some id ->
  (getPipe torch self id).1
  = (Raise (KeyError id), with_pipelines self (_default self) (released torch self)).
Proof.
  intros Hnone Ha. rewrite (getPipe_switch _ _ Ha).
  replace (released torch self !! id) with (@None PipelineWrapper); [reflexivity |].
  rewrite released_lookup. now case_decide.
Qed.
End GetPipe.

Lemma others_host_at_most_one self :
  others_host_resident self -> at_most_one_resident self.
Proof.
  intros Hothers k1 k2 w1 w2 H1 H2 R1 R2.
  assert (A1 : _active self = Some k1).
  { destruct (decide (_active self = Some k1)) as [|Hne]; [assumption |].
    pose proof (Hothers k1 w1 H1 Hne) as Hh.
    unfold accelerator_resident in R1. rewrite Hh in R1. discriminate. }
  assert (A2 : _active self = Some k2).
  { destruct (decide (_active self = Some k2)) as [|Hne]; [assumption |].
    pose proof (Hothers k2 w2 H2 Hne) as Hh.
    unfold accelerator_resident in R2. rewrite Hh in R2. discriminate. }
  congruence.
Qed.

Lemma getPipes_others_host calls : forall self,
  others_host_resident self -> others_host_resident (getPipes self calls).
Proof.
  induction calls as [|[torch id] calls IH]; intros self H; simpl; [exact H |].
  apply IH. now apply getPipe_others_host.
Qed.

Lemma getPipes_active_resident calls : forall self,
  Forall (fun call => exists w, _pipelines self !! call.2 = Some w
                                /\ device call.1 (_mode w) <> cpu) calls ->
  active_resident self -> active_resident (getPipes self calls).
Proof.
  induction calls as [|[torch id] calls IH]; intros self Hcalls Hact; simpl;
    [exact Hact |].
  apply Forall_cons in Hcalls as [(w & Hw & Hdev) Hcalls]. simpl in Hw, Hdev.
  apply IH; [| now apply (getPipe_active_resident torch self id w)].
  eapply Forall_impl; [exact Hcalls |].
  intros [torch' id'] (w' & Hw' & Hdev'). simpl in *.
  pose proof (getPipe_modes torch self id) as Hm.
  apply (f_equal (fun m => m !! id')) in Hm.
  rewrite !lookup_fmap, Hw' in Hm. simpl in Hm.
  destruct (_pipelines (getPipe torch self id).1.2 !! id') as [w''|];
    [| discriminate].
  injection Hm as Hm. exists w''. split; [reflexivity | now rewrite Hm].
Qed.

(** A failed lookup leaves the active pointer and every wrapper other than
    the active one as they were. *)
Lemma getPipe_unknown_frame torch self id :
  _pipelines self !! id = None ->
  _active self <> Some id ->
  _active (getPipe torch self id).1.2 = _active self
  /\ forall k, _active self <> Some k ->
       _pipelines (getPipe torch self id).1.2 !! k = _pipelines self !! k.
Proof.
  intros Hnone Ha. rewrite (getPipe_unknown torch self id Hnone Ha). simpl.
  split; [reflexivity |]. intros k Hk. rewrite released_lookup. now case_decide.
Qed.

(** A manager that was created and loaded is idle. *)
Lemma loadPipelines_idle os_path torch lib engines weight_root mode nsfw token :
  idle (loadPipelines os_path torch lib
          (EngineManager__init__ engines weight_root mode nsfw token)).1.2.
Proof.
  set (self := EngineManager__init__ engines weight_root mode nsfw token).
  destruct (loadPipelines_from_frame os_path torch lib (engines) self)
    as (_ & Ha & _ & Hh).
  split; [exact Ha |]. apply Hh. intros k w Hk. simpl in Hk.
  now rewrite lookup_empty in Hk.
Qed.

(** C1 (a defect of the code). On the sample installation with ["A"]
    active and accelerator-resident, [getPipe] for the unregistered ["Z"]
    raises [KeyError] and keeps the active pointer, but it has already moved
    the active wrapper to the host; a following [getPipe] for ["A"] then
    takes the fast path and returns that wrapper still on the host. *)
Theorem getPipe_unknown_id_moves_active_wrapper :
  let before := getPipes sample_manager [(with_cuda, "A")] in
  let failed := getPipe with_cuda before "Z" in
  let again := getPipe with_cuda failed.1.2 "A" in
  _pipelines before !! "Z" = None
  /\ _active before = Some "A"
  /\ (accelerator_resident ∘ _pipeline) <$> _pipelines before !! "A" = Some true
  /\ failed.1.1 = Raise (KeyError "Z")
  /\ _active failed.1.2 = Some "A"
  /\ (accelerator_resident ∘ _pipeline) <$> _pipelines failed.1.2 !! "A"
     = Some false
  /\ again.1.1 = Ok "A"
  /\ (accelerator_resident ∘ _pipeline) <$> _pipelines again.1.2 !! "A"
     = Some false.
Proof. vm_compute. repeat split; reflexivity. Qed.

(** C2 (as the code has it). From an idle manager, after any sequence of
    [getPipe] calls, failed ones included, at most one wrapper is
    accelerator-resident and every wrapper other than the active one is
    host-resident.  When every call names a registered identifier and is
    made while that wrapper's resolved device is an accelerator, the active
    pointer, if set, refers to an accelerator-resident wrapper as well. *)
Theorem residency_kept_by_getPipe
    (self : EngineManager) (calls : list (Torch * string)) :
  idle self ->
  let reached := getPipes self calls in
  at_most_one_resident reached
  /\ others_host_resident reached
  /\ (Forall (fun call => exists w, _pipelines self !! call.2 = Some w
                                    /\ device call.1 (_mode w) <> cpu) calls ->
      registry_invariant reached).
Proof.
  intros [Hnone Hhost] reached.
  assert (Hothers : others_host_resident reached).
  { apply getPipes_others_host. intros k w Hk _. now apply (Hhost k). }
  split; [now apply others_host_at_most_one |].
  split; [exact Hothers |].
  intros Hcalls. split; [now apply others_host_at_most_one |].
  split; [| exact Hothers].
  apply getPipes_active_resident; [exact Hcalls |].
  intros a Ha. congruence.
Qed.

Lemma residency_kept_by_getPipe_witness :
  registry_invariant
    (getPipes sample_manager
       [(with_cuda, "A"); (with_cuda, "B"); (with_cuda, "B")]).
Proof.
  apply (residency_kept_by_getPipe sample_manager
           [(with_cuda, "A"); (with_cuda, "B"); (with_cuda, "B")]).
  - apply loadPipelines_idle.
  - repeat constructor; simpl; eexists;
      (split; [reflexivity | intros H; vm_compute in H; discriminate H]).
Defined.

(** C2, as stated, fails: one successful [getPipe] call made while no
    accelerator is available leaves the active pointer on a wrapper that is
    host-resident. *)
Lemma active_wrapper_on_host_without_accelerator :
  idle sample_manager
  /\ (getPipe host_only sample_manager "A").1.1 = Ok "A"
  /\ ~ registry_invariant (getPipes sample_manager [(host_only, "A")]).
Proof.
  split; [apply loadPipelines_idle |]. split; [reflexivity |].
  intros (_ & Hact & _).
  destruct (Hact "A" eq_refl) as (w & Hw & Hres).
  assert (E : (accelerator_resident ∘ _pipeline)
                <$> _pipelines (getPipes sample_manager [(host_only, "A")]) !! "A"
              = Some false) by (vm_compute; reflexivity).
  rewrite Hw in E. simpl in E. congruence.
Qed.

(** * Further properties of the module *)

(** ** EngineMode *)

(** X1. The three optimisations are tied to CUDA and to the level:
    attention slicing is on exactly from level 1, whole-pipeline half
    precision exactly at level 2, and unet-only half precision exactly from
    level 3. *)
Theorem optimisation_levels (torch : Torch) (mode : EngineMode) :
  (attention_slice torch mode = true
   <-> device torch mode = cuda /\ 1 <= _vramO mode)
  /\ (fp16 torch mode = true <-> device torch mode = cuda /\ _vramO mode = 2)
  /\ (cuda_only_unet torch mode = true
      <-> device torch mode = cuda /\ 3 <= _vramO mode).
Proof.
  unfold attention_slice, fp16, cuda_only_unet.
  destruct (device torch mode); simpl;
    destruct (Z.ltb_spec 0 (_vramO mode)), (Z.ltb_spec 1 (_vramO mode)),
      (Z.ltb_spec 2 (_vramO mode)); simpl;
    intuition (discriminate || lia).
Qed.

Lemma optimisation_levels_witness :
  fp16 with_cuda (level 2) = true /\ cuda_only_unet with_cuda (level 2) = false.
Proof.
  split.
  - apply (proj1 (proj2 (optimisation_levels with_cuda (level 2)))).
    split; reflexivity.
  - destruct (cuda_only_unet with_cuda (level 2)) eqn:E; [| reflexivity].
    apply (proj2 (proj2 (optimisation_levels with_cuda (level 2)))) in E.
    simpl in E. lia.
Defined.

(** X2. CUDA is preferred to MPS, MPS to the host: the device is CUDA
    exactly when CUDA is enabled and available, MPS exactly when CUDA is not
    usable while MPS is enabled and available.  Off CUDA no optimisation is
    applied, whatever the level. *)
Theorem device_priority (torch : Torch) (mode : EngineMode) :
  (device torch mode = cuda
   <-> _enable_cuda mode = true /\ cuda_is_available torch = true)
  /\ (device torch mode = mps
      <-> (_enable_cuda mode = false \/ cuda_is_available torch = false)
          /\ _enable_mps mode = true /\ mps_is_available torch = true)
  /\ (device torch mode <> cuda ->
      attention_slice torch mode = false /\ fp16 torch mode = false
      /\ cuda_only_unet torch mode = false).
Proof.
  unfold attention_slice, fp16, cuda_only_unet, device.
  destruct (_enable_cuda mode), (cuda_is_available torch), (_enable_mps mode),
    (mps_is_available torch); simpl;
    repeat split; intros; try discriminate; try congruence; intuition congruence.
Qed.

Lemma device_priority_witness :
  attention_slice host_only (level 3) = false
  /\ fp16 host_only (level 3) = false
  /\ cuda_only_unet host_only (level 3) = false.
Proof.
  apply (proj2 (proj2 (device_priority host_only (level 3)))).
  discriminate.
Defined.

(** ** ProgressBarWrapper *)

Lemma iter_from_outcome {A : Type} (self : ProgressBarWrapper) (xs : list A) :
  forall i,
    let it := iter_from self i xs in
    yielded it = take (length (yielded it)) xs
    /\ (forall j, (j < length (yielded it))%nat ->
                  stop_requested self (i + j) = false)
    /\ ((description it = Some "ABORTED"
         /\ (length (yielded it) < length xs)%nat
         /\ stop_requested self (i + length (yielded it)) = true)
        \/ (description it = None /\ yielded it = xs)).
Proof.
  induction xs as [|x xs IH]; intros i; simpl.
  - split; [reflexivity |]. split; [intros j Hj; simpl in Hj; lia |].
    right. split; reflexivity.
  - destruct (stop_requested self i) eqn:Hi; simpl.
    + split; [reflexivity |]. split; [intros j Hj; lia |].
      left. rewrite Nat.add_0_r. repeat split; [lia | exact Hi].
    + destruct (IH (S i)) as (Hp & Hc & Hd). split; [now f_equal |]. split.
      * intros [|j] Hj; [now rewrite Nat.add_0_r |].
        replace (i + S j)%nat with (S i + j)%nat by lia. apply Hc. lia.
      * destruct Hd as [(Hd & Hl & Hs) | (Hd & Hy)].
        -- left. repeat split; [exact Hd | lia |].
           now replace (i + S (length (yielded (iter_from self (S i) xs))))%nat
             with (S i + length (yielded (iter_from self (S i) xs)))%nat by lia.
        -- right. split; [exact Hd | now f_equal].
Qed.

(** X3. Whatever the stop event does, the reporter hands out a prefix of
    the iterable, each element only after a check that found the event
    clear.  It labels itself ABORTED exactly when it handed out fewer
    elements than it was given, and then the next check had found the event
    set; without a stop event it hands out everything. *)
Theorem iteration_yields_checked_prefix {A : Type}
    (self : ProgressBarWrapper) (xs : list A) :
  let it := ProgressBarWrapper__call__ self xs in
  yielded it = take (length (yielded it)) xs
  /\ (forall j, (j < length (yielded it))%nat -> stop_requested self j = false)
  /\ (description it = Some "ABORTED" <-> (length (yielded it) < length xs)%nat)
  /\ (description it = None <-> yielded it = xs)
  /\ (description it = Some "ABORTED" ->
      stop_requested self (length (yielded it)) = true)
  /\ (_stop_event self = None -> it = {| yielded := xs; description := None |}).
Proof.
  intros it. unfold it, ProgressBarWrapper__call__, InternalTqdm__iter__.
  destruct (iter_from_outcome self xs 0) as (Hp & Hc & Hd). simpl in Hc, Hd.
  split; [exact Hp |]. split; [exact Hc |].
  destruct Hd as [(Hd & Hl & Hs) | (Hd & Hy)].
  - rewrite Hd. repeat split; try (intros; assumption); try discriminate.
    + intros Hy. rewrite Hy in Hl. lia.
    + intros Hnone. unfold stop_requested in Hs. rewrite Hnone in Hs.
      discriminate.
  - rewrite Hd, Hy. repeat split; try discriminate; try lia; try reflexivity.
    intros Hnone. destruct (iter_from self 0 xs) as [y d]. simpl in *.
    now subst.
Qed.

Lemma iteration_yields_checked_prefix_witness :
  ProgressBarWrapper__call__
    {| _progress_callback := Some "report"; _stop_event := None |} [1; 2; 3]
  = {| yielded := [1; 2; 3]; description := None |}.
Proof.
  apply (iteration_yields_checked_prefix
           {| _progress_callback := Some "report"; _stop_event := None |}
           [1; 2; 3]).
  reflexivity.
Defined.

(** ** PipelineWrapper: construction *)

(** X4. [_prepScheduler] touches nothing but the format and a stale
    [steps_offset]: class, run-time state and every other configuration key
    are kept; a configuration without [steps_offset], or with a value equal
    to 1, is left as it is without a warning (the key is not added); and
    whatever the input, the result never carries a [steps_offset] different
    from 1 and at most one warning is emitted. *)
Theorem prepScheduler_keeps_other_settings (s : Scheduler) :
  let out := _prepScheduler s in
  scheduler_class out.1 = scheduler_class s
  /\ num_inference_steps out.1 = num_inference_steps s
  /\ tensor_format out.1 = "pt"
  /\ (forall key, key <> "steps_offset" ->
                  config out.1 !! key = config s !! key)
  /\ (forall v, config out.1 !! "steps_offset" = Some v -> py_eq_int v 1 = true)
  /\ (config s !! "steps_offset" = None -> config out.1 = config s /\ out.2 = [])
  /\ (forall v, config s !! "steps_offset" = Some v -> py_eq_int v 1 = true ->
                config out.1 = config s /\ out.2 = [])
  /\ (length out.2 <= 1)%nat.
Proof.
  unfold _prepScheduler. simpl.
  destruct (config s !! "steps_offset") as [v|] eqn:Hv;
    [unfold py_ne_int; destruct (py_eq_int v 1) eqn:He |]; simpl;
    refine (conj _ (conj _ (conj _ (conj _ (conj _ (conj _ (conj _ _)))))));
    try reflexivity; try discriminate; try lia;
    try (intros v' Hv'; congruence);
    try (intros v' Hv' He'; congruence);
    try (intros _; split; reflexivity).
  - intros v' Hv' He'. split; reflexivity.
  - intros key Hkey. now apply lookup_insert_ne.
  - intros v'. rewrite lookup_insert_eq. now intros [= <-].
Qed.

Lemma prepScheduler_keeps_other_settings_witness :
  config (_prepScheduler fresh_scheduler).1 !! "skip_prk_steps"
  = config fresh_scheduler !! "skip_prk_steps"
  /\ config (_prepScheduler (_prepScheduler fresh_scheduler).1).1
     = config (_prepScheduler fresh_scheduler).1.
Proof.
  split.
  - apply (prepScheduler_keeps_other_settings fresh_scheduler). discriminate.
  - apply (proj1 (proj2 (proj2 (proj2 (proj2 (proj2 (proj2
             (prepScheduler_keeps_other_settings
                (_prepScheduler fresh_scheduler).1))))))) (PyInt 1));
      reflexivity.
Defined.

(** X5. [__init__] applies the precision policy once and moves nothing: at
    level 2 on CUDA the whole pipeline is cast to half precision, from
    level 3 on CUDA only the unet, otherwise no cast is made; attention
    slicing with slice size 1 is switched on from level 1 on CUDA and left
    alone otherwise; devices, provenance, scheduler and progress bar of the
    pipeline are as they were handed over. *)
Theorem init_precision_policy
    (torch : Torch) (lib : Libraries) (id : string) (mode : EngineMode)
    (pipeline : Pipeline) (objects : list Scheduler) :
  let p := _pipeline (PipelineWrapper__init__ torch lib id mode pipeline objects).1 in
  (device torch mode = cuda -> _vramO mode = 2 ->
   unet_dtype p = float16 /\ modules_dtype p = float16)
  /\ (device torch mode = cuda -> 3 <= _vramO mode ->
      unet_dtype p = float16 /\ modules_dtype p = modules_dtype pipeline)
  /\ (device torch mode <> cuda \/ _vramO mode <= 1 ->
      unet_dtype p = unet_dtype pipeline /\ modules_dtype p = modules_dtype pipeline)
  /\ (device torch mode = cuda -> 1 <= _vramO mode -> attention_slicing p = Some 1)
  /\ (device torch mode <> cuda \/ _vramO mode <= 0 ->
      attention_slicing p = attention_slicing pipeline)
  /\ unet_device p = unet_device pipeline
  /\ modules_device p = modules_device pipeline
  /\ scheduler p = scheduler pipeline
  /\ progress_bar p = progress_bar pipeline
  /\ weight_path p = weight_path pipeline
  /\ auth_token p = auth_token pipeline
  /\ safety_checker p = safety_checker pipeline.
Proof.
  unfold PipelineWrapper__init__.
  destruct (_prepScheduler (constructed lib KLMS)),
    (_prepScheduler (constructed lib DDIM)),
    (_prepScheduler (constructed lib EULER)),
    (_prepScheduler (constructed lib EULERA)).
  unfold fp16, cuda_only_unet, attention_slice.
  destruct (device torch mode); simpl;
    destruct (Z.ltb_spec 0 (_vramO mode)), (Z.ltb_spec 1 (_vramO mode)),
      (Z.ltb_spec 2 (_vramO mode)); simpl;
    intuition (congruence || lia).
Qed.

Lemma init_precision_policy_witness :
  (let p := _pipeline (PipelineWrapper__init__ with_cuda sample_lib "A" (level 3)
                         fresh_pipeline [fresh_scheduler]).1 in
   unet_dtype p = float16 /\ modules_dtype p = float32)
  /\ (let p := _pipeline (PipelineWrapper__init__ host_only sample_lib "A" (level 3)
                            fresh_pipeline [fresh_scheduler]).1 in
      unet_dtype p = float32 /\ modules_dtype p = float32).
Proof.
  split.
  - apply (proj1 (proj2 (init_precision_policy with_cuda sample_lib "A" (level 3)
                           fresh_pipeline [fresh_scheduler])));
      [reflexivity | simpl; lia].
  - apply (proj1 (proj2 (proj2 (init_precision_policy host_only sample_lib "A"
                                   (level 3) fresh_pipeline [fresh_scheduler])))).
    left. discriminate.
Defined.

(** X6. In a wrapper built around a pipeline whose scheduler is one of the
    objects handed over, the five scheduler fields are valid references to
    five different objects; the objects handed over are kept as they are,
    so the pipeline's own scheduler is not migrated; and each alternate is
    the constructed scheduler of its class, in the "pt" format. *)
Theorem init_scheduler_references
    (torch : Torch) (lib : Libraries) (id : string) (mode : EngineMode)
    (pipeline : Pipeline) (objects : list Scheduler) :
  (scheduler pipeline < length objects)%nat ->
  let w := (PipelineWrapper__init__ torch lib id mode pipeline objects).1 in
  NoDup [_plms w; _klms w; _ddim w; _euler w; _eulera w]
  /\ Forall (fun r => is_Some (heap w !! r))
       [_plms w; _klms w; _ddim w; _euler w; _eulera w]
  /\ (forall i, (i < length objects)%nat -> heap w !! i = objects !! i)
  /\ heap w !! _plms w = objects !! scheduler pipeline
  /\ (forall a, exists s, heap w !! slot a w = Some s
                          /\ tensor_format s = "pt"
                          /\ scheduler_class s = scheduler_class (constructed lib a)).
Proof.
  intros Hvalid w.
  destruct (init_fields torch lib id mode pipeline objects)
    as (_ & _ & Hp & Hh & H1 & H2 & H3 & H4 & _).
  fold w in Hp, Hh, H1, H2, H3, H4.
  assert (Hkeep : forall i, (i < length objects)%nat -> heap w !! i = objects !! i).
  { intros i Hi. rewrite Hh. now apply lookup_app_l. }
  assert (Hslots : forall a, exists s,
            heap w !! slot a w = Some s /\ tensor_format s = "pt"
            /\ scheduler_class s = scheduler_class (constructed lib a)).
  { intros a. exists (_prepScheduler (constructed lib a)).1.
    split; [apply init_slot |].
    unfold _prepScheduler. simpl.
    destruct (config (constructed lib a) !! "steps_offset") as [v|];
      [destruct (py_ne_int v 1) |]; split; reflexivity. }
  split; [| split; [| split; [| split]]].
  - rewrite Hp, H1, H2, H3, H4.
    repeat (apply NoDup_cons; split;
            [rewrite ?elem_of_cons, elem_of_nil; lia |]).
    apply NoDup_nil_2.
  - repeat apply Forall_cons_2; try apply Forall_nil_2.
    + rewrite Hp, Hkeep by exact Hvalid. now apply lookup_lt_is_Some.
    + destruct (Hslots KLMS) as (s & Hs & _). simpl in Hs. rewrite Hs. eauto.
    + destruct (Hslots DDIM) as (s & Hs & _). simpl in Hs. rewrite Hs. eauto.
    + destruct (Hslots EULER) as (s & Hs & _). simpl in Hs. rewrite Hs. eauto.
    + destruct (Hslots EULERA) as (s & Hs & _). simpl in Hs. rewrite Hs. eauto.
  - exact Hkeep.
  - rewrite Hp. now apply Hkeep.
  - exact Hslots.
Qed.

Lemma init_scheduler_references_witness :
  heap (PipelineWrapper__init__ with_cuda sample_lib "A" (level 0)
          fresh_pipeline [fresh_scheduler]).1 !! 0%nat
  = Some fresh_scheduler.
Proof.
  apply (proj1 (proj2 (proj2 (proj2
           (init_scheduler_references with_cuda sample_lib "A" (level 0)
              fresh_pipeline [fresh_scheduler] ltac:(simpl; lia))))) ).
Defined.

(** ** PipelineWrapper: activation *)

(** X7. [activate] moves the whole pipeline to the resolved device, or only
    the unet to CUDA under [cuda_only_unet] (the other modules stay where
    they are); doing it twice is the same as doing it once.  [deactivate]
    always ends with the whole pipeline on the host, also right after an
    [activate] and also when repeated, and it empties the CUDA cache exactly
    when the resolved device is CUDA.  Neither touches precision, scheduler
    objects or the installed scheduler. *)
Theorem activate_deactivate_cycle (torch torch' : Torch) (w : PipelineWrapper) :
  activate torch (activate torch w) = activate torch w
  /\ (deactivate torch' (deactivate torch w).1).1 = (deactivate torch w).1
  /\ host_resident (_pipeline (deactivate torch' (activate torch w)).1) = true
  /\ (cuda_only_unet torch (_mode w) = true ->
      unet_device (_pipeline (activate torch w)) = cuda
      /\ modules_device (_pipeline (activate torch w))
         = modules_device (_pipeline w))
  /\ (cuda_only_unet torch (_mode w) = false ->
      unet_device (_pipeline (activate torch w)) = device torch (_mode w)
      /\ modules_device (_pipeline (activate torch w)) = device torch (_mode w))
  /\ ((deactivate torch w).2 = [EmptyCache] <-> device torch (_mode w) = cuda)
  /\ ((deactivate torch w).2 = [] <-> device torch (_mode w) <> cuda)
  /\ (forall w', w' = activate torch w \/ w' = (deactivate torch w).1 ->
        heap w' = heap w /\ same_schedulers w w'
        /\ unet_dtype (_pipeline w') = unet_dtype (_pipeline w)
        /\ modules_dtype (_pipeline w') = modules_dtype (_pipeline w)
        /\ scheduler (_pipeline w') = scheduler (_pipeline w)
        /\ progress_bar (_pipeline w') = progress_bar (_pipeline w)).
Proof.
  split; [| split; [| split; [| split; [| split; [| split; [| split]]]]]].
  - unfold activate at 1. rewrite activate_mode. unfold activate.
    destruct (cuda_only_unet torch (_mode w)); reflexivity.
  - reflexivity.
  - reflexivity.
  - intros H. unfold activate. rewrite H. split; reflexivity.
  - intros H. unfold activate. rewrite H. split; reflexivity.
  - unfold deactivate. simpl.
    destruct (device torch (_mode w)); simpl; split; congruence.
  - unfold deactivate. simpl.
    destruct (device torch (_mode w)); simpl; split; congruence.
  - intros w' [-> | ->].
    + unfold activate. destruct (cuda_only_unet torch (_mode w));
        repeat split; reflexivity.
    + repeat split; reflexivity.
Qed.

Lemma activate_deactivate_cycle_witness :
  unet_device (_pipeline (activate with_cuda
     (PipelineWrapper__init__ with_cuda sample_lib "A" (level 3)
        fresh_pipeline [fresh_scheduler]).1)) = cuda
  /\ modules_device (_pipeline (activate with_cuda
       (PipelineWrapper__init__ with_cuda sample_lib "A" (level 3)
          fresh_pipeline [fresh_scheduler]).1)) = cpu.
Proof.
  apply (proj1 (proj2 (proj2 (proj2
           (activate_deactivate_cycle with_cuda with_cuda
              (PipelineWrapper__init__ with_cuda sample_lib "A" (level 3)
                 fresh_pipeline [fresh_scheduler]).1))))).
  reflexivity.
Defined.

(** ** PipelineWrapper.generate *)

Lemma selected_scheduler_recognised pb w s :
  selected_scheduler pb w s = None <-> recognised pb s = false.
Proof.
  unfold selected_scheduler, recognised. destruct s as [v|]; [| split; discriminate].
  destruct (v =? SAMPLER_DDPM pb), (v =? SAMPLER_K_LMS pb),
    (v =? SAMPLER_DDIM pb), (v =? SAMPLER_K_EULER pb),
    (v =? SAMPLER_K_EULER_ANCESTRAL pb); simpl; split; congruence.
Qed.

Lemma serve_placement pb lib w r :
  placement (_pipeline (serve pb lib w r).1.2) = placement (_pipeline w)
  /\ weight_path (_pipeline (serve pb lib w r).1.2) = weight_path (_pipeline w)
  /\ pipeline_class (_pipeline (serve pb lib w r).1.2)
     = pipeline_class (_pipeline w).
Proof.
  unfold serve, generate, manual_seed.
  destruct (0 <? seed (r_params r));
    [destruct (seed (r_params r) <? 2 ^ 64); [| repeat split] |];
    (destruct (selected_scheduler pb w _); [| repeat split];
     destruct (pipeline_call lib _ _ _); repeat split).
Qed.

(** X8. No [generate] call, and no sequence of them, moves the pipeline or
    changes its precision: devices, dtypes, attention slicing and the
    provenance of the weights are as before, so a wrapper is host-resident
    after the calls exactly when it was before. *)
Theorem generate_keeps_placement
    (pb : Generation_pb2) (lib : Libraries) (rs : list Request)
    (self : PipelineWrapper) :
  let after := (generates pb lib self rs).1 in
  placement (_pipeline after) = placement (_pipeline self)
  /\ weight_path (_pipeline after) = weight_path (_pipeline self)
  /\ pipeline_class (_pipeline after) = pipeline_class (_pipeline self)
  /\ host_resident (_pipeline after) = host_resident (_pipeline self).
Proof.
  revert self. induction rs as [|r rs IH]; intros self; simpl.
  - repeat split.
  - pose proof (generates_cons pb lib self r rs) as E. simpl in E. rewrite E.
    simpl. destruct (IH (serve pb lib self r).1.2) as (Hp & Hw & Hc & _).
    destruct (serve_placement pb lib self r) as (Hp' & Hw' & Hc').
    assert (P : placement (_pipeline (generates pb lib (serve pb lib self r).1.2 rs).1)
                = placement (_pipeline self)) by congruence.
    repeat split; try congruence.
    unfold placement in P. unfold host_resident. congruence.
Qed.

(** X9. A [generate] call with a recognised sampler and a seed below
    [2 ^ 64] invokes the pipeline exactly once, inside an autocast scope
    exactly when the resolved device is CUDA; a call with an unrecognised
    sampler, or with a seed that [manual_seed] refuses, emits nothing.  Over
    a sequence of calls the pipeline is invoked once per request with a
    recognised sampler and an accepted seed. *)
Theorem generate_invokes_once
    (pb : Generation_pb2) (lib : Libraries) (self : PipelineWrapper)
    (r : Request) (rs : list Request) :
  (recognised pb (sampler (r_params r)) = false \/ 2 ^ 64 <= seed (r_params r) ->
   (serve pb lib self r).2 = [])
  /\ (recognised pb (sampler (r_params r)) = true ->
      seed (r_params r) < 2 ^ 64 ->
      exists args,
        (serve pb lib self r).2
        = (if Device_eqb (device (r_torch r) (_mode self)) cuda
           then [Autocast cuda; Invoke args] else [Invoke args]))
  /\ length (List.filter is_invoke (generates pb lib self rs).2)
     = length (List.filter
                 (fun q => recognised pb (sampler (r_params q))
                           && (seed (r_params q) <? 2 ^ 64)) rs).
Proof.
  assert (Hlow : forall w q,
    seed (r_params q) < 2 ^ 64 ->
    recognised pb (sampler (r_params q)) = true ->
    exists args,
      (serve pb lib w q).2
      = (if Device_eqb (device (r_torch q) (_mode w)) cuda
         then [Autocast cuda; Invoke args] else [Invoke args])).
  { intros w q Hseed R. unfold serve, generate, manual_seed.
    destruct (Z.ltb_spec (seed (r_params q)) (2 ^ 64)); [| lia].
    destruct (selected_scheduler pb w (sampler (r_params q))) eqn:E;
      [| apply selected_scheduler_recognised in E; congruence].
    destruct (0 <? seed (r_params q));
      (destruct (pipeline_call lib _ _ _); cbn [fst snd]; unfold _autocast;
       destruct (Device_eqb (device (r_torch q) (_mode w)) cuda) eqn:D;
       [ eexists; simpl; repeat f_equal;
         destruct (device (r_torch q) (_mode w)); simpl in D; congruence
       | eexists; reflexivity ]). }
  assert (Hnone : forall w q,
    recognised pb (sampler (r_params q)) = false \/ 2 ^ 64 <= seed (r_params q) ->
    (serve pb lib w q).2 = []).
  { intros w q [R | Hseed].
    - destruct (Z.lt_ge_cases (seed (r_params q)) (2 ^ 64)) as [Hs | Hs].
      + apply (selected_scheduler_recognised pb w) in R.
        now rewrite serve_unsupported.
      + now rewrite serve_seed_overflow.
    - now rewrite serve_seed_overflow. }
  split; [apply Hnone | split; [intros R Hseed; now apply Hlow |]].
  revert self. induction rs as [|q rs IH]; intros self; [reflexivity |].
  rewrite generates_cons. simpl. rewrite List.filter_app, length_app, IH.
  destruct (recognised pb (sampler (r_params q))) eqn:R; simpl.
  - destruct (Z.ltb_spec (seed (r_params q)) (2 ^ 64)) as [Hs | Hs].
    + destruct (Hlow self q Hs R) as (args & ->).
      destruct (Device_eqb _ _); reflexivity.
    + rewrite Hnone by now right. reflexivity.
  - rewrite Hnone by now left. reflexivity.
Qed.

Lemma generate_invokes_once_witness :
  (serve sample_pb2 sample_lib sample_wrapper (sample_request (Some 5))).2 = []
  /\ length (List.filter is_invoke
       (serve sample_pb2 sample_lib sample_wrapper (sample_request (Some 7))).2)
     = 1%nat.
Proof.
  split.
  - apply (proj1 (generate_invokes_once sample_pb2 sample_lib sample_wrapper
                    (sample_request (Some 5)) [])).
    left. reflexivity.
  - destruct (proj1 (proj2 (generate_invokes_once sample_pb2 sample_lib
                sample_wrapper (sample_request (Some 7)) [])) eq_refl eq_refl)
      as (args & ->).
    reflexivity.
Defined.

(** X10. What [generate] hands to the pipeline: the prompt, the images and
    the numeric parameters of the request as they are, and tensor output
    without a result object.  A missing or empty negative prompt is passed
    as [None], any other one as it is.  For a seed that is not positive no
    generator is passed; for a positive seed the generator is seeded with
    it and sits on the device of the pipeline, except that for a pipeline on
    MPS it sits on the host.  The pipeline is only ever invoked with a seed
    below [2 ^ 64]. *)
Theorem generate_call_arguments
    (torch : Torch) (pb : Generation_pb2) (lib : Libraries)
    (self : PipelineWrapper) (text : string) (params : Params)
    (image mask outmask : option Tensor) (negative_text : option string)
    (progress_callback : option string) (stop_event : option Event)
    (args : CallArgs) :
  Invoke args ∈ (generate torch pb lib self text params image mask outmask
                   negative_text progress_callback stop_event).2 ->
  prompt args = text
  /\ init_image args = image /\ mask_image args = mask
  /\ outmask_image args = outmask
  /\ arg_strength args = strength params
  /\ arg_width args = width params /\ arg_height args = height params
  /\ arg_num_inference_steps args = steps params
  /\ guidance_scale args = cfg_scale params /\ arg_eta args = eta params
  /\ output_type args = "tensor" /\ return_dict args = false
  /\ (negative_text = None \/ negative_text = Some "" ->
      negative_prompt args = None)
  /\ (forall s, negative_text = Some s -> s <> "" -> negative_prompt args = Some s)
  /\ (seed params <= 0 -> generator args = None)
  /\ (0 < seed params -> modules_device (_pipeline self) = mps ->
      generator args = Some (cpu, seed params))
  /\ (0 < seed params -> modules_device (_pipeline self) <> mps ->
      generator args = Some (modules_device (_pipeline self), seed params))
  /\ seed params < 2 ^ 64.
Proof.
  unfold generate, manual_seed.
  assert (Hempty : negative_text = None \/ negative_text = Some "" ->
            match negative_text with
            | Some s => if String.eqb s "" then None else Some s
            | None => None
            end = None)
    by (intros [-> | ->]; reflexivity).
  assert (Hkeep : forall s, negative_text = Some s -> s <> "" ->
            match negative_text with
            | Some s => if String.eqb s "" then None else Some s
            | None => None
            end = Some s).
  { intros s -> Hs. destruct (String.eqb_spec s ""); congruence. }
  destruct (Z.ltb_spec 0 (seed params)) as [Hpos | Hpos];
    [destruct (Z.ltb_spec (seed params) (2 ^ 64)) as [Hlim | Hlim];
       [| intros H; now apply elem_of_nil in H] |];
    (destruct (selected_scheduler pb self (sampler params));
       [| intros H; now apply elem_of_nil in H];
     destruct (pipeline_call lib _ _ _); cbn [fst snd];
     intros Hin; apply elem_of_app in Hin as [Hin | Hin];
     [ unfold _autocast in Hin;
       destruct (Device_eqb (device torch (_mode self)) cuda);
       [ apply list_elem_of_singleton in Hin; discriminate
       | now apply elem_of_nil in Hin ]
     | apply list_elem_of_singleton in Hin; injection Hin as ->; cbn;
       repeat (split; [first [reflexivity | exact Hempty | exact Hkeep] |]) ]).
  - split; [intros; lia |]. split; [| split; [| exact Hlim]].
    + intros _ Hdev. rewrite Hdev. reflexivity.
    + intros _ Hdev.
      destruct (modules_device (_pipeline self)); simpl; congruence.
  - split; [intros; lia |]. split; [intros; lia | lia].
Qed.

Lemma generate_call_arguments_witness :
  exists args,
    Invoke args ∈ (serve sample_pb2 sample_lib sample_wrapper
                     (sample_request (Some 7))).2
    /\ generator args = Some (cpu, 42).
Proof.
  assert (E : exists a, (serve sample_pb2 sample_lib sample_wrapper
                           (sample_request (Some 7))).2
                        = [Autocast cuda; Invoke a])
    by (eexists; reflexivity).
  destruct E as (args & E). exists args.
  assert (Hin : Invoke args ∈ (serve sample_pb2 sample_lib sample_wrapper
                                 (sample_request (Some 7))).2).
  { rewrite E. apply list_elem_of_further, list_elem_of_here. }
  split; [exact Hin |].
  pose proof (generate_call_arguments with_cuda sample_pb2 sample_lib
                sample_wrapper "a lighthouse at dusk" (sample_params (Some 7))
                None None None None None None args Hin) as H.
  destruct H
    as (_ & _ & _ & _ & _ & _ & _ & _ & _ & _ & _ & _ & _ & _ & _ & _ & Hd & _).
  apply Hd; [reflexivity |].
  intros X. vm_compute in X. discriminate X.
Defined.

(** X11. For a recognised sampler and a seed below [2 ^ 64] the pipeline is
    called after the selected scheduler and a reporter made of this call's
    callback and stop event were installed, and [generate] returns what
    that call returned, an exception included.  Nothing is undone
    afterwards: scheduler and reporter stay installed, and of the scheduler
    objects only the installed one may have changed. *)
Theorem generate_outcome_and_installation
    (torch : Torch) (pb : Generation_pb2) (lib : Libraries)
    (self : PipelineWrapper) (text : string) (params : Params)
    (image mask outmask : option Tensor) (negative_text : option string)
    (progress_callback : option string) (stop_event : option Event)
    (ref : nat) :
  selected_scheduler pb self (sampler params) = Some ref ->
  seed params < 2 ^ 64 ->
  let call := generate torch pb lib self text params image mask outmask
                negative_text progress_callback stop_event in
  let bar := {| _progress_callback := progress_callback;
                _stop_event := stop_event |} in
  _pipeline call.1.2 = install (_pipeline self) ref bar
  /\ (exists args,
        last call.2 = Some (Invoke args)
        /\ call.1.1
           = (pipeline_call lib (install (_pipeline self) ref bar)
                (heap self) args).1)
  /\ (forall i, i <> ref -> heap call.1.2 !! i = heap self !! i)
  /\ length (heap call.1.2) = length (heap self).
Proof.
  intros Hsel Hseed call bar. unfold call, generate, manual_seed.
  destruct (Z.ltb_spec (seed params) (2 ^ 64)); [| lia].
  destruct (0 <? seed params); rewrite Hsel;
    (match goal with
     | |- context [pipeline_call lib ?p ?h ?a] =>
         destruct (pipeline_call lib p h a) as [res steps] eqn:E
     end;
     cbn [fst snd]; split; [reflexivity |]; split; [| split];
     [ match goal with |- context [Invoke ?a] => exists a end; split;
       [apply last_snoc | unfold bar; rewrite E; reflexivity]
     | intros i Hi; simpl; now apply list_lookup_alter_ne
     | simpl; apply length_alter ]).
Qed.

Lemma generate_outcome_and_installation_witness :
  _pipeline (serve sample_pb2 sample_lib sample_wrapper
               (sample_request (Some 2))).1.2
  = install (_pipeline sample_wrapper) 3%nat
      {| _progress_callback := None; _stop_event := None |}.
Proof.
  apply (generate_outcome_and_installation with_cuda sample_pb2 sample_lib
           sample_wrapper "a lighthouse at dusk" (sample_params (Some 2))
           None None None None None None 3%nat eq_refl eq_refl).
Defined.

(** X12. On a wrapper built around a pipeline whose scheduler is one of the
    objects handed over, two different recognised sampler values select
    two different scheduler objects. *)
Theorem samplers_select_distinct_schedulers
    (torch : Torch) (pb : Generation_pb2) (lib : Libraries) (id : string)
    (mode : EngineMode) (pipeline : Pipeline) (objects : list Scheduler)
    (v1 v2 : Z) :
  (scheduler pipeline < length objects)%nat ->
  recognised pb (Some v1) = true ->
  recognised pb (Some v2) = true ->
  v1 <> v2 ->
  let w := (PipelineWrapper__init__ torch lib id mode pipeline objects).1 in
  selected_scheduler pb w (Some v1) <> selected_scheduler pb w (Some v2).
Proof.
  intros Hvalid R1 R2 Hne w.
  destruct (init_fields torch lib id mode pipeline objects)
    as (_ & _ & Hp & _ & H1 & H2 & H3 & H4 & _).
  fold w in Hp, H1, H2, H3, H4.
  unfold selected_scheduler. rewrite Hp, H1, H2, H3, H4.
  unfold recognised in R1, R2.
  destruct (Z.eqb_spec v1 (SAMPLER_DDPM pb)) as [->|?];
    [| destruct (Z.eqb_spec v1 (SAMPLER_K_LMS pb)) as [->|?];
       [| destruct (Z.eqb_spec v1 (SAMPLER_DDIM pb)) as [->|?];
          [| destruct (Z.eqb_spec v1 (SAMPLER_K_EULER pb)) as [->|?];
             [| destruct (Z.eqb_spec v1 (SAMPLER_K_EULER_ANCESTRAL pb)) as [->|?];
                [| discriminate R1]]]]];
    (destruct (Z.eqb_spec v2 (SAMPLER_DDPM pb)) as [->|?];
     [| destruct (Z.eqb_spec v2 (SAMPLER_K_LMS pb)) as [->|?];
        [| destruct (Z.eqb_spec v2 (SAMPLER_DDIM pb)) as [->|?];
           [| destruct (Z.eqb_spec v2 (SAMPLER_K_EULER pb)) as [->|?];
              [| destruct (Z.eqb_spec v2 (SAMPLER_K_EULER_ANCESTRAL pb)) as [->|?];
                 [| discriminate R2]]]]]);
    try congruence; intros [= E]; lia.
Qed.

Lemma samplers_select_distinct_schedulers_witness :
  selected_scheduler sample_pb2
    (PipelineWrapper__init__ with_cuda sample_lib "A" (level 0)
       fresh_pipeline [fresh_scheduler]).1 (Some 7)
  <> selected_scheduler sample_pb2
       (PipelineWrapper__init__ with_cuda sample_lib "A" (level 0)
          fresh_pipeline [fresh_scheduler]).1 (Some 3).
Proof.
  apply (samplers_select_distinct_schedulers with_cuda sample_pb2 sample_lib "A"
           (level 0) fresh_pipeline [fresh_scheduler] 7 3).
  - simpl. lia.
  - reflexivity.
  - reflexivity.
  - discriminate.
Defined.

(** ** EngineManager: locating and building *)

(** X13. [_getWeightPath] never answers with a local path that is not an
    existing directory: its result is the remote identifier or a directory
    that exists.  An absolute local path is looked up without regard to the
    weight root. *)
Theorem weight_path_remote_or_directory
    (os_path : OsPath) (self self' : EngineManager)
    (remote_path : string) (local_path : option string) :
  (_getWeightPath os_path self remote_path local_path = remote_path
   \/ isdir os_path (_getWeightPath os_path self remote_path local_path) = true)
  /\ (forall l, local_path = Some l -> isabs os_path l = true ->
        _getWeightPath os_path self remote_path local_path
        = _getWeightPath os_path self' remote_path local_path).
Proof.
  unfold _getWeightPath. split.
  - destruct local_path as [l|]; [| now left].
    destruct (String.eqb l ""); [now left |].
    destruct (isdir os_path _) eqn:E; [now right | now left].
  - intros l -> Habs. now rewrite Habs.
Qed.

Lemma weight_path_remote_or_directory_witness :
  _getWeightPath sample_os sample_manager "CompVis/stable-diffusion-v1-4"
    (Some "/models/sd-v1-5")
  = _getWeightPath sample_os twin_manager "CompVis/stable-diffusion-v1-4"
      (Some "/models/sd-v1-5").
Proof.
  apply (proj2 (weight_path_remote_or_directory sample_os sample_manager
                  twin_manager "CompVis/stable-diffusion-v1-4"
                  (Some "/models/sd-v1-5")) "/models/sd-v1-5");
    reflexivity.
Defined.

Lemma known_class_cases class :
  known_class class = true ->
  class = "StableDiffusionPipeline" \/ class = "UnifiedPipeline".
Proof.
  unfold known_class. intros H. apply orb_true_iff in H as [H | H];
    apply String.eqb_eq in H; auto.
Qed.

(** What a successful [buildPipeline] hands back. *)
Lemma buildPipeline_built os_path torch lib self engine w warned :
  buildPipeline os_path torch lib self engine = (Ok (Some w), warned) ->
  let location :=
    _getWeightPath os_path self (e_model engine) (e_local_model engine) in
  let token :=
    if get (e_use_auth_token engine) false then _token self else PyBool false in
  known_class (e_class engine) = true
  /\ (w, warned)
     = PipelineWrapper__init__ torch lib (e_id engine) (_mode' self)
         {| pipeline_class := e_class engine; weight_path := location;
            auth_token := token;
            safety_checker :=
              if String.eqb (_nsfw self) "flag" then Some location else None;
            unet_device := cpu; modules_device := cpu;
            unet_dtype := float32; modules_dtype := float32;
            attention_slicing := None; scheduler := 0%nat;
            progress_bar := None |}
         (match load_weights lib (e_class engine) location token with
          | Ok s => [s]
          | Raise _ => []
          end)
  /\ (exists s, load_weights lib (e_class engine) location token = Ok s)
  /\ (String.eqb (_nsfw self) "flag" = true ->
      load_safety_checker lib location token = Ok tt).
Proof.
  unfold buildPipeline, known_class. cbv zeta.
  destruct (String.eqb (_nsfw self) "flag") eqn:Hflag.
  - destruct (load_safety_checker lib _ _) as [[]|ex] eqn:Hs; [| discriminate].
    unfold from_pretrained.
    destruct (String.eqb_spec (e_class engine) "StableDiffusionPipeline") as [->|_];
      [| destruct (String.eqb_spec (e_class engine) "UnifiedPipeline") as [->|_];
         [| discriminate]];
      (destruct (load_weights lib _ _ _) as [s|ex] eqn:Hl; [| discriminate];
       match goal with
       | |- context [PipelineWrapper__init__ ?t ?l ?i ?m ?p ?o] =>
           destruct (PipelineWrapper__init__ t l i m p o) as [w0 out] eqn:E
       end;
       intros [= <- <-]; rewrite <- E; repeat split; eauto).
  - unfold from_pretrained.
    destruct (String.eqb_spec (e_class engine) "StableDiffusionPipeline") as [->|_];
      [| destruct (String.eqb_spec (e_class engine) "UnifiedPipeline") as [->|_];
         [| discriminate]];
      (destruct (load_weights lib _ _ _) as [s|ex] eqn:Hl; [| discriminate];
       match goal with
       | |- context [PipelineWrapper__init__ ?t ?l ?i ?m ?p ?o] =>
           destruct (PipelineWrapper__init__ t l i m p o) as [w0 out] eqn:E
       end;
       intros [= <- <-]; rewrite <- E; repeat split; eauto; discriminate).
Qed.

Lemma init_provenance torch lib id mode pipeline objects :
  let p := _pipeline (PipelineWrapper__init__ torch lib id mode pipeline objects).1 in
  auth_token p = auth_token pipeline
  /\ safety_checker p = safety_checker pipeline.
Proof.
  unfold PipelineWrapper__init__.
  destruct (_prepScheduler (constructed lib KLMS)),
    (_prepScheduler (constructed lib DDIM)),
    (_prepScheduler (constructed lib EULER)),
    (_prepScheduler (constructed lib EULERA)).
  destruct (fp16 torch mode), (cuda_only_unet torch mode),
    (attention_slice torch mode); simpl; split; reflexivity.
Qed.

(** X14. A wrapper that [buildPipeline] returns carries the engine's
    identifier and the manager's mode, is of one of the two known classes,
    sits on the host, and was loaded with the manager's token only if the
    engine asks for it (with [False] otherwise) and with a flag-only safety
    checker only under the "flag" policy. *)
Theorem buildPipeline_credentials
    (os_path : OsPath) (torch : Torch) (lib : Libraries)
    (self : EngineManager) (engine : EngineConfig)
    (w : PipelineWrapper) (warned : list Effect) :
  buildPipeline os_path torch lib self engine = (Ok (Some w), warned) ->
  _id w = e_id engine /\ _mode w = _mode' self
  /\ pipeline_class (_pipeline w) = e_class engine
  /\ (e_class engine = "StableDiffusionPipeline"
      \/ e_class engine = "UnifiedPipeline")
  /\ host_resident (_pipeline w) = true
  /\ (get (e_use_auth_token engine) false = false ->
      auth_token (_pipeline w) = PyBool false)
  /\ (get (e_use_auth_token engine) false = true ->
      auth_token (_pipeline w) = _token self)
  /\ (_nsfw self <> "flag" -> safety_checker (_pipeline w) = None)
  /\ (_nsfw self = "flag" ->
      safety_checker (_pipeline w) = Some (weight_path (_pipeline w))).
Proof.
  intros H. apply buildPipeline_built in H as (Hk & Hw & _ & _).
  apply (f_equal fst) in Hw. simpl in Hw. subst w.
  match goal with
  | |- context [PipelineWrapper__init__ ?t ?l ?i ?m ?p ?o] =>
      destruct (init_fields t l i m p o) as (Hid & Hm & _);
      destruct (init_provenance t l i m p o) as (Ha & Hs);
      destruct (init_pipeline t l i m p o) as (Hwp & Hc & Hu & Hd)
  end.
  simpl in *. rewrite Hid, Hm, Hc, Ha, Hs, Hwp. unfold host_resident.
  rewrite Hu, Hd. simpl.
  repeat split; try reflexivity.
  - now apply known_class_cases.
  - intros ->. reflexivity.
  - intros ->. reflexivity.
  - intros Hn. destruct (String.eqb_spec (_nsfw self) "flag"); congruence.
  - intros ->. reflexivity.
Qed.

Lemma buildPipeline_credentials_witness :
  exists w warned,
    buildPipeline sample_os with_cuda sample_lib
      (EngineManager__init__ sample_engines "./weights" EngineMode_default
         "block" (Some "hf_secret"))
      (engine "A" (Some "sd-v1-4") (Some true)) = (Ok (Some w), warned)
    /\ _id w = "A" /\ auth_token (_pipeline w) = PyBool false.
Proof.
  assert (E : exists w warned,
            buildPipeline sample_os with_cuda sample_lib
              (EngineManager__init__ sample_engines "./weights"
                 EngineMode_default "block" (Some "hf_secret"))
              (engine "A" (Some "sd-v1-4") (Some true)) = (Ok (Some w), warned))
    by (eexists; eexists; reflexivity).
  destruct E as (w & warned & E). exists w, warned. split; [exact E |].
  destruct (buildPipeline_credentials _ _ _ _ _ _ _ E)
    as (Hid & _ & _ & _ & _ & Hauth & _).
  split; [exact Hid | apply Hauth; reflexivity].
Defined.

(** X15. For a class tag other than the two known ones [buildPipeline]
    never returns a wrapper and constructs no scheduler: it returns nothing
    (the implicit [None]), or, under the "flag" policy, fails with the
    exception of the safety checker, which is loaded before the class is
    looked at. *)
Theorem buildPipeline_unknown_class
    (os_path : OsPath) (torch : Torch) (lib : Libraries)
    (self : EngineManager) (engine : EngineConfig) :
  known_class (e_class engine) = false ->
  (forall w, (buildPipeline os_path torch lib self engine).1 <> Ok (Some w))
  /\ (buildPipeline os_path torch lib self engine).2 = []
  /\ (_nsfw self <> "flag" ->
      buildPipeline os_path torch lib self engine = (Ok None, []))
  /\ (forall ex,
        _nsfw self = "flag" ->
        load_safety_checker lib
          (_getWeightPath os_path self (e_model engine) (e_local_model engine))
          (if get (e_use_auth_token engine) false then _token self
           else PyBool false) = Raise ex ->
        buildPipeline os_path torch lib self engine = (Raise ex, [])).
Proof.
  unfold known_class. intros Hk. apply orb_false_iff in Hk as [H1 H2].
  unfold buildPipeline. cbv zeta. rewrite H1, H2.
  destruct (String.eqb_spec (_nsfw self) "flag") as [Hf|Hf].
  - destruct (load_safety_checker lib _ _) as [[]|ex]; simpl;
      repeat split; try discriminate; try congruence.
  - simpl. repeat split; try discriminate; congruence.
Qed.

Lemma buildPipeline_unknown_class_witness :
  buildPipeline sample_os with_cuda sample_lib
    (EngineManager__init__ broken_engines "./weights" EngineMode_default
       "block" None)
    {| e_id := "B"; e_class := "KarloPipeline"; e_model := "kakaobrain/karlo";
       e_local_model := None; e_enabled := Some true; e_default := None;
       e_use_auth_token := None |}
  = (Ok None, []).
Proof.
  apply (buildPipeline_unknown_class sample_os with_cuda sample_lib
           (EngineManager__init__ broken_engines "./weights" EngineMode_default
              "block" None)
           {| e_id := "B"; e_class := "KarloPipeline";
              e_model := "kakaobrain/karlo"; e_local_model := None;
              e_enabled := Some true; e_default := None;
              e_use_auth_token := None |});
    [reflexivity | discriminate].
Defined.

(** ** EngineManager.loadPipelines *)

Section MoreLoading.
Variable os_path : OsPath.
Variable torch : Torch.
Variable lib : Libraries.

Lemma loadPipelines_from_app l2 : forall l1 self,
  loadPipelines_from os_path torch lib self (l1 ++ l2)
  = match loadPipelines_from os_path torch lib self l1 with
    | (Ok _, self1, warned1) =>
        let '(r, self2, warned2) := loadPipelines_from os_path torch lib self1 l2 in
        (r, self2, (warned1 ++ warned2)%list)
    | (Raise ex, self1, warned1) => (Raise ex, self1, warned1)
    end.
Proof.
  induction l1 as [|c l1 IH]; intros self; simpl.
  - now destruct (loadPipelines_from os_path torch lib self l2) as [[r s] out].
  - destruct (negb (get (e_enabled c) false)); [apply IH |].
    destruct (buildPipeline os_path torch lib self c) as [[[pipe|]|ex] warned];
      try reflexivity.
    rewrite IH.
    match goal with
    | |- context [loadPipelines_from _ _ _ ?s l1] =>
        destruct (loadPipelines_from os_path torch lib s l1) as [[[[]|ex] s1] out1]
    end; [| reflexivity].
    destruct (loadPipelines_from os_path torch lib s1 l2) as [[r s2] out2].
    now rewrite app_assoc.
Qed.

(** The loop rewrites the registry and the default, nothing else. *)
Lemma loadPipelines_from_settings todo : forall self,
  let loaded := (loadPipelines_from os_path torch lib self todo).1.2 in
  _nsfw loaded = _nsfw self /\ _token loaded = _token self
  /\ _mode' loaded = _mode' self /\ _weight_root loaded = _weight_root self
  /\ _activeId loaded = _activeId self.
Proof.
  induction todo as [|c todo IH]; intros self; simpl; [repeat split |].
  destruct (negb (get (e_enabled c) false)); [apply IH |].
  destruct (buildPipeline os_path torch lib self c) as [[[pipe|]|ex] warned];
    simpl; try (repeat split; reflexivity).
  match goal with
  | |- context [loadPipelines_from _ _ _ ?s todo] =>
      specialize (IH s);
      destruct (loadPipelines_from os_path torch lib s todo) as [[r s1] out1]
  end.
  simpl in *. exact IH.
Qed.

(** The loop never drops a registration, files every wrapper under its own
    identifier with the manager's mode, and, when it ends without an
    exception, has registered every enabled engine it visited. *)
Lemma loadPipelines_from_registers todo : forall self,
  let run := loadPipelines_from os_path torch lib self todo in
  (forall k, is_Some (_pipelines self !! k) -> is_Some (_pipelines run.1.2 !! k))
  /\ (keyed_by_id self -> keyed_by_id run.1.2)
  /\ (run.1.1 = Ok tt ->
      forall c, c ∈ todo -> get (e_enabled c) false = true ->
                is_Some (_pipelines run.1.2 !! e_id c)).
Proof.
  induction todo as [|c todo IH]; intros self; simpl.
  - repeat split; auto. intros _ c Hc. now apply elem_of_nil in Hc.
  - destruct (get (e_enabled c) false) eqn:Hc; simpl.
    + destruct (buildPipeline os_path torch lib self c)
        as [[[pipe|]|ex] warned] eqn:Hb; simpl;
        try (repeat split; auto; discriminate).
      apply buildPipeline_id in Hb as [Hid _].
      match goal with
      | |- context [loadPipelines_from _ _ _ ?s todo] =>
          specialize (IH s);
          destruct (loadPipelines_from os_path torch lib s todo)
            as [[r self2] warned'] eqn:E
      end.
      simpl in IH |- *. destruct IH as (Hkeep & Hkey & Hreg).
      split; [| split].
      * intros k Hk. apply Hkeep.
        destruct (decide (_id pipe = k)) as [<-|Hne].
        -- rewrite lookup_insert_eq. eauto.
        -- now rewrite lookup_insert_ne.
      * intros Hself. apply Hkey. intros k w. simpl.
        destruct (decide (_id pipe = k)) as [<-|Hne].
        -- rewrite lookup_insert_eq. now intros [= <-].
        -- rewrite lookup_insert_ne by exact Hne. apply Hself.
      * intros Hr c' Hin Hen. apply elem_of_cons in Hin as [-> | Hin].
        -- apply Hkeep. rewrite <- Hid, lookup_insert_eq. eauto.
        -- now apply Hreg.
    + destruct (IH self) as (Hkeep & Hkey & Hreg).
      split; [exact Hkeep | split; [exact Hkey |]].
      intros Hr c' Hin Hen. apply elem_of_cons in Hin as [-> | Hin].
      * congruence.
      * now apply Hreg.
Qed.

End MoreLoading.

(** X16. [loadPipelines] visits the engines in order and stops at the first
    failure: when loading a first part of the list raises, loading the whole
    list gives that very outcome (exception, registry and warnings of the
    first part; nothing after it is visited); otherwise the rest is loaded
    from the state the first part left, and the warnings add up. *)
Theorem loadPipelines_in_order
    (os_path : OsPath) (torch : Torch) (lib : Libraries)
    (self : EngineManager) (l1 l2 : list EngineConfig) :
  let first := loadPipelines_from os_path torch lib self l1 in
  let second := loadPipelines_from os_path torch lib first.1.2 l2 in
  (forall ex, first.1.1 = Raise ex ->
     loadPipelines_from os_path torch lib self (l1 ++ l2) = first)
  /\ (first.1.1 = Ok tt ->
      loadPipelines_from os_path torch lib self (l1 ++ l2)
      = (second.1.1, second.1.2, (first.2 ++ second.2)%list)).
Proof.
  intros first second. unfold second, first.
  rewrite loadPipelines_from_app.
  destruct (loadPipelines_from os_path torch lib self l1) as [[[[]|ex] s1] out1];
    simpl; split; try discriminate.
  - intros _. now destruct (loadPipelines_from os_path torch lib s1 l2) as [[r s2] out2].
  - intros ex' _. reflexivity.
Qed.

Lemma loadPipelines_in_order_witness :
  loadPipelines_from sample_os with_cuda sample_lib
    (EngineManager__init__ broken_engines "./weights" EngineMode_default
       "block" None)
    (firstn 2 broken_engines ++ skipn 2 broken_engines)
  = loadPipelines_from sample_os with_cuda sample_lib
      (EngineManager__init__ broken_engines "./weights" EngineMode_default
         "block" None)
      (firstn 2 broken_engines).
Proof.
  apply (proj1 (loadPipelines_in_order sample_os with_cuda sample_lib
                  (EngineManager__init__ broken_engines "./weights"
                     EngineMode_default "block" None)
                  (firstn 2 broken_engines) (skipn 2 broken_engines))
           (Exception ("Unknown engine class " +:+ dquote +:+ "KarloPipeline"
                       +:+ dquote))).
  reflexivity.
Defined.

Lemma buildPipeline_no_branch os_path torch lib self engine :
  known_class (e_class engine) = false ->
  _nsfw self <> "flag" ->
  buildPipeline os_path torch lib self engine = (Ok None, []).
Proof.
  unfold known_class. intros Hk Hflag. apply orb_false_iff in Hk as [H1 H2].
  unfold buildPipeline. cbv zeta. rewrite H1, H2.
  now destruct (String.eqb_spec (_nsfw self) "flag").
Qed.

(** X17. An enabled engine with an unknown class tag makes [loadPipelines]
    raise "Unknown engine class" (the policy not being "flag"): the engines
    before it stay registered as they were loaded, and the engines after it
    are not visited. *)
Theorem loadPipelines_unknown_class
    (os_path : OsPath) (torch : Torch) (lib : Libraries)
    (self : EngineManager) (before after : list EngineConfig) (e : EngineConfig) :
  engines self = (before ++ e :: after)%list ->
  get (e_enabled e) false = true ->
  known_class (e_class e) = false ->
  _nsfw self <> "flag" ->
  (loadPipelines_from os_path torch lib self before).1.1 = Ok tt ->
  loadPipelines os_path torch lib self
  = (Raise (Exception ("Unknown engine class " +:+ dquote +:+ e_class e
                       +:+ dquote)),
     (loadPipelines_from os_path torch lib self before).1.2,
     (loadPipelines_from os_path torch lib self before).2).
Proof.
  intros Hengines Hen Hk Hflag Hok.
  unfold loadPipelines. rewrite Hengines, loadPipelines_from_app.
  destruct (loadPipelines_from_settings os_path torch lib before self)
    as (Hnsfw & _).
  destruct (loadPipelines_from os_path torch lib self before)
    as [[r s1] out1]. simpl in *. subst r. rewrite Hen. simpl.
  assert (Hb : buildPipeline os_path torch lib s1 e = (Ok None, [])).
  { apply buildPipeline_no_branch; [exact Hk | congruence]. }
  rewrite Hb. now rewrite app_nil_r.
Qed.

Lemma loadPipelines_unknown_class_witness :
  (loadPipelines sample_os with_cuda sample_lib
     (EngineManager__init__ broken_engines "./weights" EngineMode_default
        "block" None)).1.1
  = Raise (Exception ("Unknown engine class " +:+ dquote +:+ "KarloPipeline"
                      +:+ dquote)).
Proof.
  rewrite (loadPipelines_unknown_class sample_os with_cuda sample_lib
             (EngineManager__init__ broken_engines "./weights"
                EngineMode_default "block" None)
             [engine "A" None (Some true)]
             [engine "C" None (Some true)]
             {| e_id := "B"; e_class := "KarloPipeline";
                e_model := "kakaobrain/karlo"; e_local_model := None;
                e_enabled := Some true; e_default := None;
                e_use_auth_token := None |});
    [reflexivity | reflexivity | reflexivity | reflexivity | discriminate
    | reflexivity].
Defined.

(** X18. [loadPipelines] keeps the registry keyed by identifier, and when it
    ends without an exception every enabled engine is registered under its
    identifier and reported ready by [getStatus]. *)
Theorem loadPipelines_registers_enabled
    (os_path : OsPath) (torch : Torch) (lib : Libraries) (self : EngineManager) :
  keyed_by_id self ->
  let run := loadPipelines os_path torch lib self in
  keyed_by_id run.1.2
  /\ (run.1.1 = Ok tt ->
      forall c, c ∈ engines self -> get (e_enabled c) false = true ->
        (exists w, _pipelines run.1.2 !! e_id c = Some w /\ _id w = e_id c)
        /\ getStatus run.1.2 !! e_id c = Some true).
Proof.
  intros Hkeyed run.
  destruct (loadPipelines_from_registers os_path torch lib (engines self) self)
    as (_ & Hkey & Hreg).
  destruct (loadPipelines_from_frame os_path torch lib (engines self) self)
    as (Heng & _).
  fold (loadPipelines os_path torch lib self) in Hkey, Hreg, Heng.
  fold run in Hkey, Hreg, Heng.
  split; [now apply Hkey |].
  intros Hok c Hc Hen. destruct (Hreg Hok c Hc Hen) as [w Hw]. split.
  - exists w. split; [exact Hw | now apply (Hkey Hkeyed)].
  - rewrite getStatus_lookup, Heng.
    replace (existsb _ (engines self)) with true.
    + unfold registered. now rewrite Hw.
    + symmetry. apply existsb_exists. exists c. split.
      * now apply list_elem_of_In.
      * destruct (e_enabled c) as [[]|]; try discriminate.
        simpl. apply String.eqb_refl.
Qed.

Lemma loadPipelines_registers_enabled_witness :
  getStatus sample_manager !! "B" = Some true.
Proof.
  apply (proj2 (loadPipelines_registers_enabled sample_os with_cuda sample_lib
                  (EngineManager__init__ sample_engines "./weights"
                     EngineMode_default "block" None)
                  ltac:(intros k w H; simpl in H; rewrite lookup_empty in H;
                        discriminate H))
           eq_refl (engine "B" None (Some true))).
  - apply list_elem_of_further, list_elem_of_here.
  - reflexivity.
Defined.




(** With two enabled engines under one identifier the default stays the
    wrapper built for the first, which the registry no longer holds: the
    registry holds the wrapper built for the second. *)
Example default_outlives_registration :
  let loaded := (loadPipelines sample_os with_cuda sample_lib
                   (EngineManager__init__ colliding_engines "./weights"
                      EngineMode_default "block" None)).1.2 in
  _default loaded = Some 0%nat /\ _built loaded = 2%nat
  /\ (weight_path ∘ _pipeline) <$> _pipelines loaded !! "A"
     = Some "weights/sd-v1-4".
Proof. vm_compute. repeat split; reflexivity. Qed.

(** ** EngineManager.getPipe, further *)

Lemma unmoved_activate torch w : unmoved (activate torch w) = unmoved w.
Proof. unfold activate. now destruct (cuda_only_unet torch (_mode w)). Qed.

Lemma unmoved_deactivate torch w : unmoved (deactivate torch w).1 = unmoved w.
Proof. reflexivity. Qed.

Lemma released_unmoved torch self :
  unmoved <$> released torch self = unmoved <$> _pipelines self.
Proof.
  apply map_eq. intros k. rewrite !lookup_fmap, released_lookup.
  case_decide; [| reflexivity]. now destruct (_pipelines self !! k).
Qed.

Lemma with_pipelines_same self :
  with_pipelines self (_default self) (_pipelines self) = self.
Proof. now destruct self. Qed.

(** One call: the registry is the same up to placement, and the settings
    are untouched. *)
Lemma getPipe_unmoved torch self id :
  let after := (getPipe torch self id).1.2 in
  unmoved <$> _pipelines after = unmoved <$> _pipelines self
  /\ engines after = engines self /\ _default after = _default self
  /\ _weight_root after = _weight_root self /\ _mode' after = _mode' self
  /\ _nsfw after = _nsfw self /\ _token after = _token self.
Proof.
  destruct (decide (_active self = Some id)) as [Ha|Ha].
  - rewrite (getPipe_active _ _ _ Ha). repeat split.
  - rewrite (getPipe_switch _ _ _ Ha).
    destruct (released torch self !! id) as [w|] eqn:E; simpl;
      (split; [| repeat split]).
    + rewrite fmap_insert, unmoved_activate, insert_id; [apply released_unmoved |].
      now rewrite lookup_fmap, E.
    + apply released_unmoved.
Qed.

(** The two outcomes of one call. *)
Lemma getPipe_outcome torch self id :
  (_active self = Some id \/ is_Some (_pipelines self !! id) ->
   (getPipe torch self id).1.1 = Ok id
   /\ _active (getPipe torch self id).1.2 = Some id)
  /\ (_active self <> Some id -> _pipelines self !! id = None ->
      (getPipe torch self id).1.1 = Raise (KeyError id)
      /\ _active (getPipe torch self id).1.2 = _active self).
Proof.
  destruct (decide (_active self = Some id)) as [Ha|Ha].
  - rewrite (getPipe_active _ _ _ Ha). split; [now split | contradiction].
  - rewrite (getPipe_switch _ _ _ Ha).
    rewrite released_lookup. case_decide; [contradiction |].
    destruct (_pipelines self !! id) as [w|] eqn:E; simpl; split;
      try (intros; split; reflexivity); try discriminate.
    intros [? | [w Hw]]; [contradiction | discriminate].
Qed.

Lemma getPipe_active_registered torch self id :
  (forall a, _active self = Some a -> is_Some (_pipelines self !! a)) ->
  forall a, _active (getPipe torch self id).1.2 = Some a ->
            is_Some (_pipelines (getPipe torch self id).1.2 !! a).
Proof.
  intros Hreg a Ha.
  destruct (getPipe_unmoved torch self id) as (Hu & _).
  assert (Hkeys : forall k, is_Some (_pipelines self !! k) ->
                            is_Some (_pipelines (getPipe torch self id).1.2 !! k)).
  { intros k [w Hw]. apply (f_equal (fun m => m !! k)) in Hu.
    rewrite !lookup_fmap, Hw in Hu.
    destruct (_pipelines (getPipe torch self id).1.2 !! k); [eauto | discriminate]. }
  destruct (getPipe_outcome torch self id) as (Hok & Hfail).
  destruct (decide (_active self = Some id)) as [Hact | Hact].
  - destruct (Hok (or_introl Hact)) as (_ & Hnew).
    rewrite Hnew in Ha. injection Ha as <-. apply Hkeys. now apply Hreg.
  - destruct (_pipelines self !! id) as [w|] eqn:E.
    + destruct (Hok (or_intror (ex_intro _ w eq_refl))) as (_ & Hnew).
      rewrite Hnew in Ha. injection Ha as <-. apply Hkeys. rewrite E. eauto.
    + destruct (Hfail Hact eq_refl) as (_ & Hsame).
      rewrite Hsame in Ha. apply Hkeys. now apply Hreg.
Qed.

(** X20. [getPipe] calls, successful or not, only ever change where
    pipelines sit: up to placement the registry is the same, with the same
    identifiers registered, filed under their own identifiers if they were;
    engine list and default are untouched; and the active pointer keeps
    naming a registered wrapper. *)
Theorem getPipes_change_placement_only
    (calls : list (Torch * string)) (self : EngineManager) :
  let reached := getPipes self calls in
  unmoved <$> _pipelines reached = unmoved <$> _pipelines self
  /\ (forall k, is_Some (_pipelines reached !! k) <-> is_Some (_pipelines self !! k))
  /\ engines reached = engines self /\ _default reached = _default self
  /\ (keyed_by_id self -> keyed_by_id reached)
  /\ ((forall a, _active self = Some a -> is_Some (_pipelines self !! a)) ->
      forall a, _active reached = Some a -> is_Some (_pipelines reached !! a)).
Proof.
  assert (Hmain : forall calls self,
    unmoved <$> _pipelines (getPipes self calls) = unmoved <$> _pipelines self
    /\ engines (getPipes self calls) = engines self
    /\ _default (getPipes self calls) = _default self
    /\ ((forall a, _active self = Some a -> is_Some (_pipelines self !! a)) ->
        forall a, _active (getPipes self calls) = Some a ->
                  is_Some (_pipelines (getPipes self calls) !! a))).
  { clear. induction calls as [|[torch id] calls IH]; intros self; simpl.
    - repeat split; auto.
    - destruct (IH (getPipe torch self id).1.2) as (Hu & He & Hd & Ha).
      destruct (getPipe_unmoved torch self id) as (Hu' & He' & Hd' & _).
      repeat split; try congruence.
      intros Hreg. apply Ha. now apply getPipe_active_registered. }
  intros reached. destruct (Hmain calls self) as (Hu & He & Hd & Ha).
  fold reached in Hu, He, Hd, Ha.
  assert (Hat : forall k, unmoved <$> _pipelines reached !! k
                          = unmoved <$> _pipelines self !! k).
  { intros k. apply (f_equal (fun m => m !! k)) in Hu.
    now rewrite !lookup_fmap in Hu. }
  repeat split; try assumption.
  - intros [w Hw]. specialize (Hat k). rewrite Hw in Hat.
    destruct (_pipelines self !! k); [eauto | discriminate].
  - intros [w Hw]. specialize (Hat k). rewrite Hw in Hat.
    destruct (_pipelines reached !! k); [eauto | discriminate].
  - intros Hkeyed k w Hw. specialize (Hat k). rewrite Hw in Hat.
    destruct (_pipelines self !! k) as [w0|] eqn:E; [| discriminate].
    simpl in Hat. apply (f_equal (fun o => _id <$> o)) in Hat. simpl in Hat.
    injection Hat as Hat. rewrite Hat. now apply Hkeyed.
Qed.

Lemma getPipes_change_placement_only_witness :
  keyed_by_id (getPipes sample_manager
                 [(with_cuda, "A"); (host_only, "Z"); (with_cuda, "B")]).
Proof.
  apply (getPipes_change_placement_only
           [(with_cuda, "A"); (host_only, "Z"); (with_cuda, "B")] sample_manager).
  apply (loadPipelines_from_registers sample_os with_cuda sample_lib
           sample_engines
           (EngineManager__init__ sample_engines "./weights" EngineMode_default
              "block" None)).
  intros k w H. simpl in H. rewrite lookup_empty in H. discriminate H.
Defined.

(** X21. The readiness map does not depend on which pipeline is active:
    after any sequence of [getPipe] calls [getStatus] returns what it
    returned before. *)
Theorem getStatus_unaffected_by_getPipe
    (calls : list (Torch * string)) (self : EngineManager) :
  getStatus (getPipes self calls) = getStatus self.
Proof.
  revert self. induction calls as [|[torch id] calls IH]; intros self; simpl;
    [reflexivity |].
  rewrite IH. apply map_eq. intros k. rewrite !getStatus_lookup.
  destruct (getPipe_unmoved torch self id) as (Hu & He & _).
  rewrite He. unfold registered.
  apply (f_equal (fun m => m !! k)) in Hu. rewrite !lookup_fmap in Hu.
  destruct (_pipelines (getPipe torch self id).1.2 !! k),
    (_pipelines self !! k); try discriminate; reflexivity.
Qed.

(** X22. Asking for a registered pipeline succeeds and makes it the active
    one; asking for it again, under whatever probes, is a no-op: the same
    wrapper is returned, the manager is unchanged and nothing is
    emitted. *)
Theorem getPipe_again_is_noop
    (torch torch' : Torch) (self : EngineManager) (id : string) :
  is_Some (_pipelines self !! id) ->
  let first := getPipe torch self id in
  first.1.1 = Ok id
  /\ _active first.1.2 = Some id
  /\ getPipe torch' first.1.2 id = (Ok id, first.1.2, []).
Proof.
  intros Hreg first.
  destruct (proj1 (getPipe_outcome torch self id) (or_intror Hreg)) as (Hok & Ha).
  fold first in Hok, Ha. repeat split; [exact Hok | exact Ha |].
  now apply getPipe_active.
Qed.

Lemma getPipe_again_is_noop_witness :
  getPipe host_only (getPipe with_cuda sample_manager "A").1.2 "A"
  = (Ok "A", (getPipe with_cuda sample_manager "A").1.2, []).
Proof.
  apply (getPipe_again_is_noop with_cuda host_only sample_manager "A").
  eexists. reflexivity.
Defined.

(** X23. Switching from an active wrapper to another registered one
    deactivates the first (it ends on the host, and the CUDA cache is
    emptied when the device is CUDA), activates the second from the state it
    was in, points [_active] at it and leaves every other wrapper alone. *)
Theorem getPipe_switch_moves_both
    (torch : Torch) (self : EngineManager) (a id : string)
    (wa w : PipelineWrapper) :
  _active self = Some a -> a <> id ->
  _pipelines self !! a = Some wa ->
  _pipelines self !! id = Some w ->
  let call := getPipe torch self id in
  call.1.1 = Ok id
  /\ _active call.1.2 = Some id
  /\ _pipelines call.1.2 !! a = Some (deactivate torch wa).1
  /\ _pipelines call.1.2 !! id = Some (activate torch w)
  /\ (forall k, k <> a -> k <> id ->
                _pipelines call.1.2 !! k = _pipelines self !! k)
  /\ call.2 = (deactivate torch wa).2.
Proof.
  intros Ha Hne Hwa Hw call. unfold call, getPipe. rewrite Ha.
  destruct (String.eqb_spec id a) as [->|_]; [contradiction |].
  rewrite Hwa. cbn [deactivate]. cbv zeta.
  rewrite lookup_insert_ne by exact Hne. rewrite Hw. simpl.
  repeat split.
  - rewrite lookup_insert_ne by congruence. apply lookup_insert_eq.
  - apply lookup_insert_eq.
  - intros k Hka Hkid. now rewrite !lookup_insert_ne by congruence.
Qed.

Lemma getPipe_switch_moves_both_witness :
  (host_resident ∘ _pipeline)
    <$> _pipelines (getPipes sample_manager [(with_cuda, "A"); (with_cuda, "B")])
        !! "A"
  = Some true.
Proof.
  assert (E : exists wa w,
            _pipelines (getPipe with_cuda sample_manager "A").1.2 !! "A" = Some wa
            /\ _pipelines (getPipe with_cuda sample_manager "A").1.2 !! "B" = Some w)
    by (eexists; eexists; split; reflexivity).
  destruct E as (wa & w & Hwa & Hw).
  destruct (getPipe_switch_moves_both with_cuda
              (getPipe with_cuda sample_manager "A").1.2 "A" "B" wa w
              eq_refl ltac:(discriminate) Hwa Hw) as (_ & _ & HA & _).
  simpl getPipes. rewrite HA. reflexivity.
Defined.

(** X24. With no pipeline active, asking for an unregistered identifier
    raises [KeyError] and leaves the manager exactly as it was, emitting
    nothing.  In particular a manager that was created but not loaded
    answers every [getPipe] this way, and reports every engine that is not
    explicitly disabled as not ready. *)
Theorem getPipe_unknown_without_active
    (torch : Torch) (self : EngineManager) (id : string) :
  (_active self = None -> _pipelines self !! id = None ->
   getPipe torch self id = (Raise (KeyError id), self, []))
  /\ (forall engines weight_root mode nsfw token,
        self = EngineManager__init__ engines weight_root mode nsfw token ->
        getPipe torch self id = (Raise (KeyError id), self, [])
        /\ forall c, c ∈ engines -> get (e_enabled c) true = true ->
                     getStatus self !! e_id c = Some false).
Proof.
  assert (Hgen : _active self = None -> _pipelines self !! id = None ->
                 getPipe torch self id = (Raise (KeyError id), self, [])).
  { intros Ha Hnone. unfold getPipe. rewrite Ha, Hnone.
    now rewrite with_pipelines_same. }
  split; [exact Hgen |].
  intros engines weight_root mode nsfw token ->. split.
  - apply Hgen; [reflexivity | apply lookup_empty].
  - intros c Hc Hen. rewrite getStatus_lookup. simpl.
    replace (existsb _ engines) with true; [reflexivity |].
    symmetry. apply existsb_exists. exists c. split.
    + now apply list_elem_of_In.
    + rewrite Hen. simpl. apply String.eqb_refl.
Qed.

Lemma getPipe_unknown_without_active_witness :
  getPipe with_cuda sample_manager "Z"
  = (Raise (KeyError "Z"), sample_manager, []).
Proof.
  apply (getPipe_unknown_without_active with_cuda sample_manager "Z");
    reflexivity.
Defined.
